(** * Althinect chatbot: query parsing and SQL construction

    A shallow embedding of [src/parsers.py] ([QueryParser]),
    [src/sql_builder.py] ([SQLBuilder]) and the mapping table of
    [src/config.py], followed by the properties of these functions.

    Conventions of the embedding.
    - A Python [str] is a [string]; each [ascii] stands for the code point
      of the same number, so the model covers the queries whose characters
      are below U+0100.  [str.lower], [str.isspace] and the regex classes
      [\s] and [\d] are written out for that range.
    - A Python exception is a value of [exn]; a function that may raise
      returns [res A].
    - A [dict] that is only looked up is a [gmap]; one whose [keys()] are
      listed in insertion order is an association list ([odict]).
    - [datetime.now()] is a parameter [now] of the function that reads it. *)

From stdpp Require Import base strings list gmap.
From Stdlib Require Import Ascii ZArith Lia.

Local Open Scope string_scope.
Local Open Scope list_scope.

(** ** Exceptions and results *)

Inductive exn : Type :=
| KeyError (key : string)
| ValueError (msg : string)
| IndexError (msg : string)
| OverflowError (msg : string).

Definition exn_class (e : exn) : string :=
  match e with
  | KeyError _ => "KeyError"
  | ValueError _ => "ValueError"
  | IndexError _ => "IndexError"
  | OverflowError _ => "OverflowError"
  end.

Inductive res (A : Type) : Type :=
| Ok (a : A)
| Raise (e : exn).

Arguments Ok {A} a.
Arguments Raise {A} e.

#[global] Instance res_ret : MRet res := fun A a => Ok a.

#[global] Instance res_bind : MBind res := fun A B k r =>
  match r with
  | Ok a => k a
  | Raise e => Raise e
  end.

(** The call ends with an exception of class [cls]. *)
Definition raises {A : Type} (r : option (res A)) (cls : string) : Prop :=
  exists e, r = Some (Raise e) /\ exn_class e = cls.

(** ** Python string primitives *)

Module Py.

Definition code (c : ascii) : nat := nat_of_ascii c.

Definition between (lo hi n : nat) : bool := (lo <=? n)%nat && (n <=? hi)%nat.

(** [str.isspace] on one character: TAB..CR, FS..US, SPACE, NEL, NBSP. *)
Definition isspace (c : ascii) : bool :=
  let n := code c in
  between 9 13 n || between 28 32 n || (n =? 133)%nat || (n =? 160)%nat.

(** The decimal digits below U+0100 are ['0'..'9']. *)
Definition isdigit (c : ascii) : bool := between 48 57 (code c).

(** [str.lower] on one character: A-Z and the Latin-1 capitals. *)
Definition lower_char (c : ascii) : ascii :=
  let n := code c in
  if between 65 90 n || between 192 214 n || between 216 222 n
  then ascii_of_nat (n + 32)
  else c.

Fixpoint lower (s : string) : string :=
  match s with
  | EmptyString => EmptyString
  | String c s' => String (lower_char c) (lower s')
  end.

Fixpoint lstrip (s : string) : string :=
  match s with
  | EmptyString => EmptyString
  | String c s' => if isspace c then lstrip s' else s
  end.

Fixpoint rstrip (s : string) : string :=
  match s with
  | EmptyString => EmptyString
  | String c s' =>
      match rstrip s' with
      | EmptyString => if isspace c then EmptyString else String c EmptyString
      | r => String c r
      end
  end.

Definition strip (s : string) : string := rstrip (lstrip s).

(** [pat in s] for strings: [pat] occurs in [s] as a substring. *)
Fixpoint contains (pat s : string) : bool :=
  String.prefix pat s ||
  match s with
  | EmptyString => false
  | String _ s' => contains pat s'
  end.

(** Every character of [s] is a decimal digit. *)
Fixpoint only_digits (s : string) : bool :=
  match s with
  | EmptyString => true
  | String c s' => isdigit c && only_digits s'
  end.

(** Every character of [s] is white space. *)
Fixpoint only_spaces (s : string) : bool :=
  match s with
  | EmptyString => true
  | String c s' => isspace c && only_spaces s'
  end.

(** [any(f(x) for x in l)] *)
Definition any {A : Type} (f : A -> bool) (l : list A) : bool := existsb f l.

(** [sep.join(l)] *)
Fixpoint join (sep : string) (l : list string) : string :=
  match l with
  | [] => ""
  | [x] => x
  | x :: l' => x +:+ sep +:+ join sep l'
  end.

(** [l[i]] on a list *)
Definition list_getitem {A : Type} (l : list A) (i : nat) : res A :=
  match l !! i with
  | Some x => Ok x
  | None => Raise (IndexError "list index out of range")
  end.

(** [d[k]] on a dict *)
Definition getitem {V : Type} (d : gmap string V) (k : string) : res V :=
  match d !! k with
  | Some v => Ok v
  | None => Raise (KeyError k)
  end.

(** Insertion-ordered dicts with string values. *)
Definition odict : Type := list (string * string).

Fixpoint od_lookup (d : odict) (k : string) : option string :=
  match d with
  | [] => None
  | (k', v) :: d' => if String.eqb k' k then Some v else od_lookup d' k
  end.

(** [k in d] *)
Definition od_mem (k : string) (d : odict) : bool :=
  match od_lookup d k with Some _ => true | None => false end.

(** [d[k]] *)
Definition od_getitem (d : odict) (k : string) : res string :=
  match od_lookup d k with
  | Some v => Ok v
  | None => Raise (KeyError k)
  end.

(** [list(d.keys())] and [d.values()] *)
Definition od_keys (d : odict) : list string := map fst d.

End Py.

(** ** The regular expression [stenter\s*(\d+)] *)

Module Re.

Fixpoint strip_prefix (p s : string) : option string :=
  match p, s with
  | EmptyString, _ => Some s
  | String a p', String b s' => if Ascii.eqb a b then strip_prefix p' s' else None
  | String _ _, EmptyString => None
  end.

(** [\s*], greedy *)
Fixpoint skip_spaces (s : string) : string :=
  match s with
  | EmptyString => EmptyString
  | String c s' => if Py.isspace c then skip_spaces s' else s
  end.

(** [\d*], greedy: the digits read and the rest of the input *)
Fixpoint span_digits (s : string) : string * string :=
  match s with
  | EmptyString => (EmptyString, EmptyString)
  | String c s' =>
      if Py.isdigit c
      then let (ds, rest) := span_digits s' in (String c ds, rest)
      else (EmptyString, s)
  end.

(** A match of the pattern at the start of [s]: the group [(\d+)] and the
    input after the match.  White space and digits are disjoint classes and
    nothing follows the group, so the greedy choice is the only one. *)
Definition match_stenter (s : string) : option (string * string) :=
  match strip_prefix "stenter" s with
  | None => None
  | Some r =>
      match span_digits (skip_spaces r) with
      | (EmptyString, _) => None
      | (ds, rest) => Some (ds, rest)
      end
  end.

(** The scan of [re.findall]: a match is recorded and the scan resumes
    after it; otherwise it moves one character on.  Every step consumes
    input, so the length of the input bounds the number of steps. *)
Fixpoint findall_steps (n : nat) (s : string) : list string :=
  match n with
  | O => []
  | S n' =>
      match match_stenter s with
      | Some (ds, rest) => ds :: findall_steps n' rest
      | None =>
          match s with
          | EmptyString => []
          | String _ s' => findall_steps n' s'
          end
      end
  end.

(** [re.findall(r'stenter\s*(\d+)', s)] *)
Definition findall (s : string) : list string :=
  findall_steps (String.length s) s.

End Re.

(** ** [src/config.py] *)

Module Config.

(** [MACHINE_MAPPINGS] as the file spells it out: the production entries
    of stenter 1.  The functions below take the table as a parameter, so
    every result about them also holds for the full table. *)
Definition MACHINE_MAPPINGS : gmap string Py.odict :=
  {[ "production" :=
       [ ("stenter1", "TJ-Stenter01 Length(ioid2)");
         ("stenter01", "TJ-Stenter01 Length(ioid2)") ] ]}.

(** A table with all three categories, with the device names that
    [tests/test_sql_builder.py] expects for stenter 7 (energy) and
    stenter 3 (utilization). *)
Definition sample_mappings : gmap string Py.odict :=
  <[ "energy" := [ ("stenter7", "TJ-Stenter07A") ] ]>
  (<[ "utilization" := [ ("stenter3", "TJ-Stenter03 Status") ] ]>
   MACHINE_MAPPINGS).

End Config.

(** ** The calendar operations of [datetime] that the parser uses *)

Module Datetime.

Local Open Scope Z_scope.

(** The date part of a [datetime]; the time of day is never printed. *)
Record date : Type := mkdate { year : Z; month : Z; day : Z }.

Definition is_leap (y : Z) : bool :=
  (y mod 4 =? 0) && (negb (y mod 100 =? 0) || (y mod 400 =? 0)).

Definition days_in_month (y m : Z) : Z :=
  if m =? 2 then (if is_leap y then 29 else 28)
  else if (m =? 4) || (m =? 6) || (m =? 9) || (m =? 11) then 30
  else 31.

(** [d - timedelta(days=1)]; below [date.min] Python raises. *)
Definition prev_day (d : date) : res date :=
  if 1 <? day d then Ok (mkdate (year d) (month d) (day d - 1))
  else if 1 <? month d
       then Ok (mkdate (year d) (month d - 1) (days_in_month (year d) (month d - 1)))
  else if 1 <? year d then Ok (mkdate (year d - 1) 12 31)
  else Raise (OverflowError "date value out of range").

(** [d - timedelta(days=n)] *)
Fixpoint sub_days (d : date) (n : nat) : res date :=
  match n with
  | O => Ok d
  | S n' => d' ← prev_day d; sub_days d' n'
  end.

(** [d.replace(day=k)] *)
Definition replace_day (d : date) (k : Z) : date := mkdate (year d) (month d) k.

Definition digit (n : Z) : ascii := ascii_of_nat (48 + Z.to_nat (n mod 10)).

Definition pad2 (n : Z) : string :=
  String (digit (n / 10)) (String (digit n) EmptyString).

Definition pad4 (n : Z) : string :=
  String (digit (n / 1000)) (String (digit (n / 100)) (pad2 n)).

(** [d.strftime('%Y-%m-%d')], for the years that print with four digits. *)
Definition strftime (d : date) : string :=
  pad4 (year d) +:+ "-" +:+ pad2 (month d) +:+ "-" +:+ pad2 (day d).

End Datetime.

(** ** [src/parsers.py]: class [QueryParser] *)

Module Parsers.

Section QueryParser.

(** The module-level table imported from [src.config]. *)
Variable MACHINE_MAPPINGS : gmap string Py.odict.

(** [self.casual_patterns], set by [__init__] *)
Definition casual_patterns : list string :=
  ["hello"; "hi"; "hey"; "thank you"; "thanks"; "bye"].

Definition is_casual_query (query : string) : bool :=
  let query_lower := Py.strip (Py.lower query) in
  Py.any (fun pattern => Py.contains pattern query_lower) casual_patterns.

Definition detect_query_type (query : string) : string :=
  let query_lower := Py.lower query in
  if Py.any (fun word => Py.contains word query_lower)
       ["production"; "length"; "fabric length"; "output"]
  then "production"
  else if Py.any (fun word => Py.contains word query_lower)
            ["energy"; "consumption"; "power"]
  then "energy"
  else if Py.any (fun word => Py.contains word query_lower)
            ["utilization"; "efficiency"; "uptime"; "status"]
  then "utilization"
  else "production".

Definition extract_machine_numbers (query : string) : res (list string) :=
  let query_lower := Py.lower query in
  let stenter_matches := Re.findall query_lower in
  match stenter_matches with
  | _ :: _ => Ok (map (fun num => "stenter" +:+ num) stenter_matches)
  | [] =>
      if Py.any (fun phrase => Py.contains phrase query_lower)
           ["all machines"; "all stenters"]
      then table ← Py.getitem MACHINE_MAPPINGS "production"; Ok (Py.od_keys table)
      else Ok []
  end.

Definition month_mappings : list (string * (string * string)) :=
  [ ("january", ("2025-01-01", "2025-01-31"));
    ("february", ("2025-02-01", "2025-02-28"));
    ("march", ("2025-03-01", "2025-03-31"));
    ("april", ("2025-04-01", "2025-04-30"));
    ("may", ("2025-05-01", "2025-05-31")) ].

(** The loop [for month, (start, end) in month_mappings.items()]: the
    range of the first entry whose name occurs in the query. *)
Fixpoint scan_months (query_lower : string)
    (items : list (string * (string * string))) : option (string * string) :=
  match items with
  | [] => None
  | (month, (start, end_)) :: items' =>
      if Py.contains month query_lower then Some (start, end_)
      else scan_months query_lower items'
  end.

Definition extract_date_range (now : Datetime.date) (query : string)
    : res (string * string) :=
  let query_lower := Py.lower query in
  match scan_months query_lower month_mappings with
  | Some range => Ok range
  | None =>
      if Py.any (fun phrase => Py.contains phrase query_lower)
           ["last 7 days"; "past week"]
      then
        let end_date := now in
        start_date ← Datetime.sub_days end_date 7;
        Ok (Datetime.strftime start_date, Datetime.strftime end_date)
      else
        let start_date := Datetime.strftime (Datetime.replace_day now 1) in
        let end_date := Datetime.strftime now in
        Ok (start_date, end_date)
  end.

Definition detect_visualization_needs (query : string) : bool * string :=
  let query_lower := Py.lower query in
  let viz_keywords := ["plot"; "chart"; "graph"; "visualize"; "show"] in
  let needs_viz := Py.any (fun keyword => Py.contains keyword query_lower) viz_keywords in
  let chart_type :=
    if Py.contains "line" query_lower then "line"
    else if Py.contains "pie" query_lower then "pie"
    else if Py.contains "bar" query_lower then "bar"
    else "bar" in
  (needs_viz, chart_type).

End QueryParser.

End Parsers.

(** ** [str.format] with keyword arguments only

    [build_query] passes its keyword parameters on to [str.format] and
    gives it no positional argument.  The model covers replacement fields that are a
    plain keyword name or empty, the escapes [{{] and [}}], and parameter
    values that are strings.  A field with an index, an attribute, a
    conversion or a format spec is outside the model: the result is then
    [None].  The input is read left to right and the first error stops the
    scan, as in CPython. *)

Module Format.

Inductive mode : Type :=
| Text
| Field (name : string).

Definition lbrace : ascii := "{"%char.
Definition rbrace : ascii := "}"%char.

Definition beyond_field (c : ascii) : bool :=
  Ascii.eqb c "["%char || Ascii.eqb c "."%char ||
  Ascii.eqb c "!"%char || Ascii.eqb c ":"%char.

(** The object a field names.  An empty name is the positional index 0,
    which the empty argument tuple does not have. *)
Definition field_value (kwargs : gmap string string) (name : string)
    : option (res string) :=
  match name with
  | EmptyString =>
      Some (Raise (IndexError
        "Replacement index 0 out of range for positional args tuple"))
  | _ => if Py.only_digits name then None else Some (Py.getitem kwargs name)
  end.

(** Put [pre] in front of what the rest of the scan produces. *)
Definition emit (pre : string) (r : option (res string)) : option (res string) :=
  match r with
  | Some (Ok s) => Some (Ok (pre +:+ s))
  | other => other
  end.

Fixpoint scan (kwargs : gmap string string) (m : mode) (s : string)
    : option (res string) :=
  match s with
  | EmptyString =>
      match m with
      | Text => Some (Ok EmptyString)
      | Field _ => Some (Raise (ValueError "expected '}' before end of string"))
      end
  | String c s' =>
      match m with
      | Text =>
          if Ascii.eqb c lbrace then
            match s' with
            | EmptyString =>
                Some (Raise (ValueError "Single '{' encountered in format string"))
            | String c' s'' =>
                if Ascii.eqb c' lbrace
                then emit (String lbrace EmptyString) (scan kwargs Text s'')
                else scan kwargs (Field EmptyString) s'
            end
          else if Ascii.eqb c rbrace then
            match s' with
            | EmptyString =>
                Some (Raise (ValueError "Single '}' encountered in format string"))
            | String c' s'' =>
                if Ascii.eqb c' rbrace
                then emit (String rbrace EmptyString) (scan kwargs Text s'')
                else Some (Raise (ValueError "Single '}' encountered in format string"))
            end
          else emit (String c EmptyString) (scan kwargs Text s')
      | Field name =>
          if Ascii.eqb c rbrace then
            match field_value kwargs name with
            | Some (Ok v) => emit v (scan kwargs Text s')
            | other => other
            end
          else if Ascii.eqb c lbrace then
            Some (Raise (ValueError "unexpected '{' in field name"))
          else if beyond_field c then None
          else scan kwargs (Field (name +:+ String c EmptyString)) s'
      end
  end.

(** [template.format] applied to the keyword arguments [kwargs] *)
Definition format (template : string) (kwargs : gmap string string)
    : option (res string) :=
  scan kwargs Text template.

End Format.

(** ** [src/sql_builder.py]: class [SQLBuilder] *)

Module SqlBuilder.

(** [_load_templates()] as the file spells it out. *)
Definition load_templates : gmap string string :=
  {[ "daily_production" := "
            WITH device_lookup AS (
                SELECT virtual_device_id, device_name FROM devices
            ),
            production_calculation AS (
                -- Your existing template logic
            )
            SELECT * FROM production_calculation;
            " ]}.

Section SQLBuilder.

Variable MACHINE_MAPPINGS : gmap string Py.odict.

(** [self.templates] *)
Variable templates : gmap string string.

(** The loop of [build_device_filter]: [machine_names] is the list built so
    far.  [MACHINE_MAPPINGS[query_type]] is evaluated at every turn. *)
Fixpoint collect_names (machines : list string) (query_type : string)
    (machine_names : list string) : res (list string) :=
  match machines with
  | [] => Ok machine_names
  | machine :: machines' =>
      table ← Py.getitem MACHINE_MAPPINGS query_type;
      if Py.od_mem machine table
      then
        name ← Py.od_getitem table machine;
        collect_names machines' query_type (machine_names ++ [name])
      else collect_names machines' query_type machine_names
  end.

Definition equality_clause (name : string) : string :=
  "AND device_id = (SELECT virtual_device_id FROM devices WHERE device_name = '"
  +:+ name +:+ "')".

Definition in_clause (machine_list : string) : string :=
  "AND device_id IN (SELECT virtual_device_id FROM devices WHERE device_name IN ('"
  +:+ machine_list +:+ "'))".

Definition build_device_filter (machines : list string) (query_type : string)
    : res string :=
  match machines with
  | [] => Ok ""
  | _ :: _ =>
      machine_names ← collect_names machines query_type [];
      if (length machine_names =? 1)%nat
      then
        name ← Py.list_getitem machine_names 0;
        Ok (equality_clause name)
      else
        let machine_list := Py.join "', '" machine_names in
        Ok (in_clause machine_list)
  end.

(** [build_query]: [params] are its keyword parameters.  The
    [except KeyError] clause logs and raises the same exception again. *)
Definition build_query (template_name : string) (params : gmap string string)
    : option (res string) :=
  match templates !! template_name with
  | None => Some (Raise (ValueError ("Template " +:+ template_name +:+ " not found")))
  | Some template => Format.format template params
  end.

End SQLBuilder.

End SqlBuilder.

(** ** Vocabulary of the statements *)

Module Spec.

(** Some word of [words] occurs in the lower-cased query. *)
Definition has_word (words : list string) (query : string) : bool :=
  Py.any (fun word => Py.contains word (Py.lower query)) words.

Definition production_words : list string :=
  ["production"; "length"; "fabric length"; "output"].
Definition energy_words : list string := ["energy"; "consumption"; "power"].
Definition utilization_words : list string :=
  ["utilization"; "efficiency"; "uptime"; "status"].

Definition starts_with_digit (s : string) : bool :=
  match s with
  | EmptyString => false
  | String c _ => Py.isdigit c
  end.

(** The text contains a mention: "stenter", optional white space, digits. *)
Definition has_mention (s : string) : Prop :=
  exists a ws ds b,
    s = a +:+ "stenter" +:+ ws +:+ ds +:+ b /\
    Py.only_spaces ws = true /\ ds <> "" /\ Py.only_digits ds = true.

(** The device names that the identifiers of [machines] select in
    [table], in the order of [machines]. *)
Definition selected (table : Py.odict) (machines : list string) : list string :=
  omap (Py.od_lookup table) machines.

(** The identifiers that the mapping table knows for a category. *)
Definition known_identifiers (mappings : gmap string Py.odict)
    (category : string) : list string :=
  match mappings !! category with
  | Some table => Py.od_keys table
  | None => []
  end.

(** The device filter as a function of the names it interpolates. *)
Definition filter_of_names (names : list string) : string :=
  match names with
  | [name] => SqlBuilder.equality_clause name
  | _ => SqlBuilder.in_clause (Py.join "', '" names)
  end.

(** A template seen as a sequence of literal characters and named
    placeholders, and the text that spells it. *)
Inductive piece : Type :=
| Lit (c : ascii)
| Hole (name : string).

Definition spell_piece (p : piece) : string :=
  match p with
  | Lit c =>
      if Ascii.eqb c Format.lbrace || Ascii.eqb c Format.rbrace
      then String c (String c EmptyString)
      else String c EmptyString
  | Hole name => String Format.lbrace name +:+ String Format.rbrace EmptyString
  end.

Fixpoint spell (ps : list piece) : string :=
  match ps with
  | [] => EmptyString
  | p :: ps' => spell_piece p +:+ spell ps'
  end.

Fixpoint name_chars (s : string) : bool :=
  match s with
  | EmptyString => true
  | String c s' =>
      negb (Ascii.eqb c Format.lbrace) && negb (Ascii.eqb c Format.rbrace) &&
      negb (Format.beyond_field c) && name_chars s'
  end.

(** A placeholder name that [str.format] looks up among the keywords. *)
Definition plain_name (name : string) : bool :=
  match name with
  | EmptyString => false
  | _ => name_chars name && negb (Py.only_digits name)
  end.

Definition plain_piece (p : piece) : bool :=
  match p with
  | Lit _ => true
  | Hole name => plain_name name
  end.

Definition holes (ps : list piece) : list string :=
  omap (fun p => match p with Hole name => Some name | Lit _ => None end) ps.

(** Every placeholder replaced by its value, left to right; the first
    placeholder without a value raises [KeyError]. *)
Fixpoint substitute (kwargs : gmap string string) (ps : list piece) : res string :=
  match ps with
  | [] => Ok EmptyString
  | Lit c :: ps' => s ← substitute kwargs ps'; Ok (String c s)
  | Hole name :: ps' =>
      v ← Py.getitem kwargs name;
      s ← substitute kwargs ps';
      Ok (v +:+ s)
  end.

(** The template with every placeholder replaced by its value. *)
Definition fill_piece (kwargs : gmap string string) (p : piece) : string :=
  match p with
  | Lit c => String c EmptyString
  | Hole name => default EmptyString (kwargs !! name)
  end.

Fixpoint fill (kwargs : gmap string string) (ps : list piece) : string :=
  match ps with
  | [] => EmptyString
  | p :: ps' => fill_piece kwargs p +:+ fill kwargs ps'
  end.

(** First and last day of month [m] of 2025, as [strftime] prints them. *)
Definition month_of_2025 (m : Z) : string * string :=
  (Datetime.strftime (Datetime.mkdate 2025 m 1),
   Datetime.strftime (Datetime.mkdate 2025 m (Datetime.days_in_month 2025 m))).

(** The messages of the [ValueError]s of [str.format]. *)
Definition format_messages : list string :=
  [ "expected '}' before end of string";
    "Single '{' encountered in format string";
    "Single '}' encountered in format string";
    "unexpected '{' in field name" ].

(** A template with two placeholders, in the style of the date bounds
    and the device filter that the spec names. *)
Fixpoint lits (s : string) : list piece :=
  match s with
  | EmptyString => []
  | String c s' => Lit c :: lits s'
  end.

Definition sample_pieces : list piece :=
  lits "SELECT * FROM energy WHERE day >= '" ++ [Hole "start_date"] ++
  lits "' " ++ [Hole "device_filter"].

Definition sample_templates : gmap string string :=
  {[ "daily_energy" :=
       "SELECT * FROM energy WHERE day >= '{start_date}' {device_filter}" ]}.

End Spec.

(** ** [src/session_manager.py]: class [SessionManager]

    [st.session_state] holds two keys, each of which may be absent;
    reading an absent key as an attribute raises [AttributeError].  The
    identifier drawn by [uuid.uuid4()] and the value of [datetime.now()]
    are parameters.  [st.rerun()] ends [create_new_session] after the state
    is written; the state it leaves is what the function returns here. *)

Module Session.

Inductive message : Type :=
| AIMessage (content : string)
| HumanMessage (content : string).

Inductive outcome (A : Type) : Type :=
| Done (a : A)
| AttributeError (key : string).

Arguments Done {A} a.
Arguments AttributeError {A} key.

Section SessionManager.

(** The values of [datetime.now()]. *)
Variable timestamp : Type.

Record session : Type := mk_session {
  title : string;
  messages : list message;
  created_at : timestamp
}.

Record session_state : Type := mk_state {
  sessions : option (gmap string session);
  active_session_id : option string
}.

(** [l[-10:]] *)
Definition last_ten {A : Type} (l : list A) : list A := drop (length l - 10) l.

Definition initialize_sessions (session_id : string) (now : timestamp)
    (st : session_state) : session_state :=
  let st1 :=
    match sessions st with
    | None => mk_state (Some ∅) (active_session_id st)
    | Some _ => st
    end in
  match active_session_id st1 with
  | Some _ => st1
  | None =>
      let welcome :=
        mk_session "Welcome Chat"
          [AIMessage "Hello! I'm your Production Analytics Bot."] now in
      mk_state (Some (<[session_id := welcome]> (default ∅ (sessions st1))))
               (Some session_id)
  end.

Definition create_new_session (session_id : string) (now : timestamp)
    (st : session_state) : outcome session_state :=
  match sessions st with
  | None => AttributeError "sessions"
  | Some ss =>
      let fresh :=
        mk_session "New Chat"
          [AIMessage "Hello! How can I help you analyze your production data?"]
          now in
      Done (mk_state (Some (<[session_id := fresh]> ss)) (Some session_id))
  end.

Definition add_message (msg : message) (st : session_state)
    : outcome session_state :=
  match active_session_id st with
  | None => AttributeError "active_session_id"
  | Some active =>
      match sessions st with
      | None => AttributeError "sessions"
      | Some ss =>
          match ss !! active with
          | None => Done st
          | Some s =>
              let current_messages := messages s ++ [msg] in
              let kept :=
                if (10 <? length current_messages)%nat
                then last_ten current_messages
                else current_messages in
              Done (mk_state
                      (Some (<[active := mk_session (title s) kept (created_at s)]> ss))
                      (Some active))
          end
      end
  end.

(** [add_message] for each message of a list, in order, stopping at the
    first exception. *)
Fixpoint add_messages (msgs : list message) (st : session_state)
    : outcome session_state :=
  match msgs with
  | [] => Done st
  | msg :: msgs' =>
      match add_message msg st with
      | Done st' => add_messages msgs' st'
      | AttributeError key => AttributeError key
      end
  end.

(** The state of a script run that has set no key yet. *)
Definition empty_state : session_state := mk_state None None.

(** The messages of the active session, when there is one. *)
Definition active_messages (st : session_state) : option (list message) :=
  match sessions st, active_session_id st with
  | Some ss, Some active => messages <$> ss !! active
  | _, _ => None
  end.

(** The active identifier names a stored session. *)
Definition active_is_stored (st : session_state) : Prop :=
  exists ss active s,
    sessions st = Some ss /\ active_session_id st = Some active /\
    ss !! active = Some s.

(** No stored session holds more than ten messages. *)
Definition history_bounded (st : session_state) : Prop :=
  forall ss k s, sessions st = Some ss -> ss !! k = Some s ->
    length (messages s) <= 10.

End SessionManager.

Arguments mk_session {timestamp} _ _ _.
Arguments mk_state {timestamp} _ _.
Arguments title {timestamp} _.
Arguments messages {timestamp} _.
Arguments created_at {timestamp} _.
Arguments sessions {timestamp} _.
Arguments active_session_id {timestamp} _.
Arguments empty_state {timestamp}.
Arguments initialize_sessions {timestamp} _ _ _.
Arguments create_new_session {timestamp} _ _ _.
Arguments add_message {timestamp} _ _.
Arguments add_messages {timestamp} _ _.
Arguments active_messages {timestamp} _.
Arguments active_is_stored {timestamp} _.
Arguments history_bounded {timestamp} _.

End Session.

(** ** Vocabulary of the further properties *)

Module Props.

(** The text is not empty and neither starts nor ends with white space. *)
Fixpoint ends_nonspace (p : string) : bool :=
  match p with
  | EmptyString => false
  | String c EmptyString => negb (Py.isspace c)
  | String _ p' => ends_nonspace p'
  end.

Definition edges_nonspace (p : string) : bool :=
  match p with
  | EmptyString => false
  | String c _ => negb (Py.isspace c) && ends_nonspace p
  end.

(** An identifier made by [extract_machine_numbers] from a match. *)
Definition stenter_id (id : string) : Prop :=
  exists ds, id = "stenter" +:+ ds /\ ds <> "" /\ Py.only_digits ds = true.

(** The three categories have a table. *)
Definition covers_categories (mappings : gmap string Py.odict) : Prop :=
  is_Some (mappings !! "production") /\
  is_Some (mappings !! "energy") /\
  is_Some (mappings !! "utilization").

(** The text with every brace doubled, as a template spells it. *)
Fixpoint escape (s : string) : string :=
  match s with
  | EmptyString => EmptyString
  | String c s' =>
      if Ascii.eqb c Format.lbrace || Ascii.eqb c Format.rbrace
      then String c (String c (escape s'))
      else String c (escape s')
  end.

Fixpoint no_braces (s : string) : bool :=
  match s with
  | EmptyString => true
  | String c s' =>
      negb (Ascii.eqb c Format.lbrace) && negb (Ascii.eqb c Format.rbrace) &&
      no_braces s'
  end.

(** A date that Python's [date] accepts. *)
Definition valid_date (d : Datetime.date) : Prop :=
  (1 <= Datetime.year d <= 9999 /\
   1 <= Datetime.month d <= 12 /\
   1 <= Datetime.day d <= Datetime.days_in_month (Datetime.year d) (Datetime.month d))%Z.

(** The number of days before January 1st of year [y]. *)
Definition days_before_year (y : Z) : Z :=
  (365 * (y - 1) + (y - 1) / 4 - (y - 1) / 100 + (y - 1) / 400)%Z.

(** The number of days of year [y] in its first [n] months. *)
Fixpoint days_in_first_months (y : Z) (n : nat) : Z :=
  match n with
  | O => 0%Z
  | S n' => (days_in_first_months y n' + Datetime.days_in_month y (Z.of_nat n))%Z
  end.

(** [d.toordinal()]: the number of the day, 0001-01-01 being day 1. *)
Definition ordinal (d : Datetime.date) : Z :=
  (days_before_year (Datetime.year d)
   + days_in_first_months (Datetime.year d) (Z.to_nat (Datetime.month d - 1))
   + Datetime.day d)%Z.


(** The query names none of the months of the table. *)
Definition no_month (query : string) : Prop :=
  Parsers.scan_months (Py.lower query) Parsers.month_mappings = None.

End Props.

(** ** Sample states for the session manager *)

Module Fixtures.

(** One session that holds ten messages. *)
Definition full_session : Session.session nat :=
  Session.mk_session "New Chat"
    (map Session.HumanMessage
       ["0"; "1"; "2"; "3"; "4"; "5"; "6"; "7"; "8"; "9"]) 0.

Definition full_sessions : gmap string (Session.session nat) :=
  {[ "a" := full_session ]}.

Definition full_state : Session.session_state nat :=
  Session.mk_state (Some full_sessions) (Some "a").

(** Two sessions, the first one active. *)
Definition session_a : Session.session nat := Session.mk_session "A" [] 1.
Definition session_b : Session.session nat :=
  Session.mk_session "B" [Session.AIMessage "x"] 2.

Definition two_stored : gmap string (Session.session nat) :=
  {[ "a" := session_a; "b" := session_b ]}.

Definition two_sessions : Session.session_state nat :=
  Session.mk_state (Some two_stored) (Some "a").

(** The active identifier names no stored session. *)
Definition dangling_state : Session.session_state nat :=
  Session.mk_state (Some {[ "a" := session_a ]}) (Some "gone").

End Fixtures.

(** * Sanity checks of the embedding on the inputs of the test-suite *)

Example lower_mixed_case : Py.lower "sHoW uTiLiZaTiOn" = "show utilization".
Proof. reflexivity. Qed.

Example findall_two :
  Re.findall "stenter 3 and stenter 5 production" = ["3"; "5"].
Proof. reflexivity. Qed.

Example findall_glued : Re.findall "stenter1 vs stenter2" = ["1"; "2"].
Proof. reflexivity. Qed.

Example findall_none : Re.findall "stenter machine number 1" = [].
Proof. reflexivity. Qed.

Example format_sample :
  Format.format "a {x} {{b}} {y}" {[ "x" := "1"; "y" := "2" ]} = Some (Ok "a 1 {b} 2").
Proof. vm_compute. reflexivity. Qed.

Example format_missing :
  Format.format "a {x} } {y}" {[ "y" := "2" ]} = Some (Raise (KeyError "x")).
Proof. vm_compute. reflexivity. Qed.

Example filter_single :
  SqlBuilder.build_device_filter Config.MACHINE_MAPPINGS ["stenter1"] "production"
  = Ok "AND device_id = (SELECT virtual_device_id FROM devices WHERE device_name = 'TJ-Stenter01 Length(ioid2)')".
Proof. vm_compute. reflexivity. Qed.

Example date_week :
  Parsers.extract_date_range (Datetime.mkdate 2025 3 4) "past week"
  = Ok ("2025-02-25", "2025-03-04").
Proof. vm_compute. reflexivity. Qed.

(** * Strings *)

(** stdpp blocks the unfolding of [String.append]; the proofs below compute
    with it. *)
#[local] Arguments String.append !_ _ / : simpl nomatch.

Section StringFacts.

Lemma str_app_assoc (a b c : string) : (a +:+ b) +:+ c = a +:+ (b +:+ c).
Proof. induction a as [|x a IH]; simpl; [reflexivity | now rewrite IH]. Qed.

Lemma str_app_nil_r (a : string) : a +:+ "" = a.
Proof. induction a as [|x a IH]; simpl; [reflexivity | now rewrite IH]. Qed.

Lemma str_length_app (a b : string) :
  String.length (a +:+ b) = String.length a + String.length b.
Proof. induction a as [|x a IH]; simpl; [reflexivity | now rewrite IH]. Qed.

Lemma prefix_app (p s : string) : String.prefix p (p +:+ s) = true.
Proof.
  induction p as [|x p IH]; simpl; [now destruct s |].
  destruct (ascii_dec x x) as [_|Hne]; [exact IH | now destruct Hne].
Qed.

Lemma prefix_inv (p s : string) :
  String.prefix p s = true -> exists b, s = p +:+ b.
Proof.
  revert s. induction p as [|x p IH]; intros s H.
  - exists s. reflexivity.
  - destruct s as [|y s]; simpl in H; [discriminate |].
    destruct (ascii_dec x y) as [->|_]; [| discriminate].
    destruct (IH s H) as [b ->]. exists b. reflexivity.
Qed.

(** [Py.contains] is the substring test of Python's [in]. *)
Lemma contains_spec (p s : string) :
  Py.contains p s = true <-> exists a b, s = a +:+ p +:+ b.
Proof.
  split.
  - induction s as [|c s IH]; cbn [Py.contains]; intros H.
    + apply orb_prop in H as [H|H]; [| discriminate].
      apply prefix_inv in H as [b ->]. exists "", b. reflexivity.
    + apply orb_prop in H as [H|H].
      * apply prefix_inv in H as [b ->]. exists "", b. reflexivity.
      * destruct (IH H) as (a & b & ->). exists (String c a), b. reflexivity.
  - intros (a & b & ->). induction a as [|c a IH].
    + change ("" +:+ p +:+ b) with (p +:+ b).
      pose proof (prefix_app p b) as E.
      destruct (p +:+ b); cbn [Py.contains]; rewrite E; reflexivity.
    + change (String c a +:+ p +:+ b) with (String c (a +:+ p +:+ b)).
      cbn [Py.contains]. rewrite IH. apply orb_true_r.
Qed.

Lemma lower_app (a b : string) : Py.lower (a +:+ b) = Py.lower a +:+ Py.lower b.
Proof. induction a as [|x a IH]; simpl; [reflexivity | now rewrite IH]. Qed.

(** A word occurs in the lower-cased query whatever its case in the query. *)
Lemma contains_lower (query a w b : string) :
  query = a +:+ w +:+ b -> Py.contains (Py.lower w) (Py.lower query) = true.
Proof.
  intros ->. rewrite !lower_app. apply contains_spec. eauto.
Qed.

Lemma lower_char_idem (c : ascii) : Py.lower_char (Py.lower_char c) = Py.lower_char c.
Proof. destruct c as [[] [] [] [] [] [] [] []]; reflexivity. Qed.

(** Lower-casing twice is lower-casing once: the parsers see the same
    text whatever the case of the query. *)
Lemma lower_idem (s : string) : Py.lower (Py.lower s) = Py.lower s.
Proof.
  induction s as [|c s IH]; simpl; [reflexivity |].
  now rewrite lower_char_idem, IH.
Qed.

Lemma space_not_digit (c : ascii) : Py.isspace c = true -> Py.isdigit c = false.
Proof. destruct c as [[] [] [] [] [] [] [] []]; vm_compute; congruence. Qed.

End StringFacts.

(** * The scan of [re.findall] *)

Section FindallFacts.

Lemma strip_prefix_app (p s : string) : Re.strip_prefix p (p +:+ s) = Some s.
Proof.
  induction p as [|x p IH]; simpl; [now destruct s |].
  now rewrite Ascii.eqb_refl.
Qed.

Lemma strip_prefix_inv (p s r : string) :
  Re.strip_prefix p s = Some r -> s = p +:+ r.
Proof.
  revert s. induction p as [|x p IH]; intros s H.
  - simpl in H. injection H as <-. reflexivity.
  - destruct s as [|y s]; simpl in H; [discriminate |].
    destruct (Ascii.eqb_spec x y) as [->|_]; [| discriminate].
    simpl. now rewrite (IH s H).
Qed.

Lemma skip_spaces_length (s : string) :
  String.length (Re.skip_spaces s) <= String.length s.
Proof.
  induction s as [|c s IH]; simpl; [lia |].
  destruct (Py.isspace c); simpl; lia.
Qed.

Lemma span_digits_length (s ds rest : string) :
  Re.span_digits s = (ds, rest) ->
  String.length s = String.length ds + String.length rest.
Proof.
  revert ds rest. induction s as [|c s IH]; simpl; intros ds rest H.
  - injection H as <- <-. reflexivity.
  - destruct (Py.isdigit c).
    + destruct (Re.span_digits s) as [ds' rest'] eqn:E.
      injection H as <- <-. simpl. rewrite (IH _ _ eq_refl). reflexivity.
    + injection H as <- <-. reflexivity.
Qed.

(** A match consumes input: the scan resumes in a strictly shorter text. *)
Lemma match_stenter_shorter (s ds rest : string) :
  Re.match_stenter s = Some (ds, rest) -> String.length rest < String.length s.
Proof.
  unfold Re.match_stenter. intros H.
  destruct (Re.strip_prefix "stenter" s) as [r|] eqn:Hp; [| discriminate].
  apply strip_prefix_inv in Hp as ->.
  destruct (Re.span_digits (Re.skip_spaces r)) as [ds' rest'] eqn:Hd.
  apply span_digits_length in Hd.
  pose proof (skip_spaces_length r) as Hs.
  destruct ds'; [discriminate |]. injection H as <- <-.
  rewrite str_length_app. simpl in *. lia.
Qed.

Lemma match_stenter_nil : Re.match_stenter "" = None.
Proof. reflexivity. Qed.

Lemma findall_steps_enough (n m : nat) (s : string) :
  String.length s <= n -> String.length s <= m ->
  Re.findall_steps n s = Re.findall_steps m s.
Proof.
  revert m s. induction n as [|n IH]; intros m s Hn Hm.
  - destruct s; [| simpl in Hn; lia]. now destruct m.
  - destruct m as [|m].
    + destruct s; [| simpl in Hm; lia]. reflexivity.
    + cbn [Re.findall_steps].
      destruct (Re.match_stenter s) as [[ds rest]|] eqn:E.
      * apply match_stenter_shorter in E. f_equal. apply IH; lia.
      * destruct s as [|c s]; [reflexivity |]. simpl in Hn, Hm. apply IH; lia.
Qed.

(** The scan, without the step counter. *)
Lemma findall_eq (s : string) :
  Re.findall s =
  match Re.match_stenter s with
  | Some (ds, rest) => ds :: Re.findall rest
  | None =>
      match s with
      | EmptyString => []
      | String _ s' => Re.findall s'
      end
  end.
Proof.
  unfold Re.findall. destruct s as [|c s]; [reflexivity |].
  cbn [String.length Re.findall_steps].
  destruct (Re.match_stenter (String c s)) as [[ds rest]|] eqn:E.
  - apply match_stenter_shorter in E. simpl in E. f_equal.
    apply findall_steps_enough; lia.
  - reflexivity.
Qed.

Lemma skip_spaces_app (ws s : string) :
  Py.only_spaces ws = true -> Re.skip_spaces (ws +:+ s) = Re.skip_spaces s.
Proof.
  induction ws as [|c ws IH]; simpl; intros H; [reflexivity |].
  apply andb_prop in H as [Hc Hws]. rewrite Hc. auto.
Qed.

Lemma skip_spaces_no_space (s : string) :
  match s with EmptyString => true | String c _ => negb (Py.isspace c) end = true ->
  Re.skip_spaces s = s.
Proof.
  destruct s as [|c s]; simpl; [reflexivity |].
  destruct (Py.isspace c); [discriminate | reflexivity].
Qed.

Lemma span_digits_app (ds rest : string) :
  Py.only_digits ds = true -> Spec.starts_with_digit rest = false ->
  Re.span_digits (ds +:+ rest) = (ds, rest).
Proof.
  intros Hds Hrest. induction ds as [|c ds IH]; simpl.
  - destruct rest as [|r rest]; [reflexivity |].
    simpl in Hrest. simpl. now rewrite Hrest.
  - simpl in Hds. apply andb_prop in Hds as [Hc Hds].
    rewrite Hc, (IH Hds). reflexivity.
Qed.

(** The pattern matches a mention, and the group is the digits as written. *)
Lemma match_stenter_mention (ws ds rest : string) :
  Py.only_spaces ws = true ->
  ds <> "" -> Py.only_digits ds = true ->
  Spec.starts_with_digit rest = false ->
  Re.match_stenter ("stenter" +:+ ws +:+ ds +:+ rest) = Some (ds, rest).
Proof.
  intros Hws Hne Hds Hrest. unfold Re.match_stenter.
  rewrite strip_prefix_app, (skip_spaces_app _ _ Hws).
  rewrite skip_spaces_no_space.
  - rewrite (span_digits_app _ _ Hds Hrest). now destruct ds.
  - destruct ds as [|d ds]; [congruence |]. simpl in *.
    apply andb_prop in Hds as [Hd _].
    destruct (Py.isspace d) eqn:E; [| reflexivity].
    apply space_not_digit in E. congruence.
Qed.

End FindallFacts.

(** * Text in front of a mention *)

Section BeforeMention.

Lemma strip_prefix_extend (p s r t : string) :
  Re.strip_prefix p s = Some r -> Re.strip_prefix p (s +:+ t) = Some (r +:+ t).
Proof.
  intros H. apply strip_prefix_inv in H as ->.
  rewrite str_app_assoc. apply strip_prefix_app.
Qed.

Ltac next_char s :=
  destruct s as [|? s]; cbn [Re.strip_prefix String.append] in *;
  [ try discriminate;
    repeat match goal with
    | H : (?a =? ?b)%char = true |- _ => apply Ascii.eqb_eq in H; subst
    end; reflexivity
  | match goal with
    | |- context [Ascii.eqb ?a ?b] =>
        destruct (Ascii.eqb a b) eqn:?; [| reflexivity]
    end ].

(** The word "stenter" does not overlap itself: a text that does not
    start with it does not start with it either when a mention follows. *)
Lemma strip_prefix_no_overlap (s x : string) :
  s <> "" -> Re.strip_prefix "stenter" s = None ->
  Re.strip_prefix "stenter" (s +:+ "stenter" +:+ x) = None.
Proof.
  intros Hne H. destruct s as [|c0 s]; [congruence |]. clear Hne.
  cbn [Re.strip_prefix String.append] in *.
  destruct (Ascii.eqb "s" c0) eqn:E0; [| reflexivity].
  do 6 (next_char s). discriminate.
Qed.

Lemma no_digits_extend (r x : string) :
  fst (Re.span_digits (Re.skip_spaces r)) = "" ->
  fst (Re.span_digits (Re.skip_spaces (r +:+ "stenter" +:+ x))) = "".
Proof.
  induction r as [|c r IH]; intros H; [reflexivity |].
  simpl in *. destruct (Py.isspace c); [auto |].
  simpl in *. destruct (Py.isdigit c); [| reflexivity].
  destruct (Re.span_digits r). discriminate.
Qed.

Lemma match_stenter_none (s : string) :
  Re.match_stenter s = None <->
  Re.strip_prefix "stenter" s = None \/
  exists r, Re.strip_prefix "stenter" s = Some r /\
            fst (Re.span_digits (Re.skip_spaces r)) = "".
Proof.
  unfold Re.match_stenter.
  destruct (Re.strip_prefix "stenter" s) as [r|]; [| intuition].
  destruct (Re.span_digits (Re.skip_spaces r)) as [ds rest] eqn:E.
  split.
  - intros H. right. exists r. rewrite E. destruct ds; [easy | discriminate].
  - intros [H | (r' & Hr & Hd)]; [discriminate |].
    injection Hr as <-. rewrite E in Hd. simpl in Hd. now subst ds.
Qed.

(** No match starts in a text without matches when a mention follows it. *)
Lemma match_stenter_before_mention (s x : string) :
  s <> "" -> Re.match_stenter s = None ->
  Re.match_stenter (s +:+ "stenter" +:+ x) = None.
Proof.
  intros Hne H. apply match_stenter_none.
  apply match_stenter_none in H as [H | (r & Hr & Hd)].
  - left. now apply strip_prefix_no_overlap.
  - right. exists (r +:+ "stenter" +:+ x). split.
    + now apply strip_prefix_extend.
    + now apply no_digits_extend.
Qed.

Lemma findall_before_mention (pre x : string) :
  Re.findall pre = [] ->
  Re.findall (pre +:+ "stenter" +:+ x) = Re.findall ("stenter" +:+ x).
Proof.
  induction pre as [|c pre IH]; intros H; [reflexivity |].
  rewrite findall_eq in H.
  destruct (Re.match_stenter (String c pre)) as [[ds rest]|] eqn:E; [discriminate |].
  rewrite findall_eq.
  rewrite (match_stenter_before_mention (String c pre) x); [| discriminate | exact E].
  simpl. auto.
Qed.

(** The first mention of a text and the scan of what follows it. *)
Lemma findall_mention (pre ws ds rest : string) :
  Re.findall pre = [] ->
  Py.only_spaces ws = true ->
  ds <> "" -> Py.only_digits ds = true ->
  Spec.starts_with_digit rest = false ->
  Re.findall (pre +:+ "stenter" +:+ ws +:+ ds +:+ rest) = ds :: Re.findall rest.
Proof.
  intros Hpre Hws Hne Hds Hrest.
  rewrite findall_before_mention by exact Hpre.
  rewrite findall_eq, match_stenter_mention by assumption.
  reflexivity.
Qed.

(** What a match is made of. *)
Lemma skip_spaces_split (r : string) :
  exists ws, r = ws +:+ Re.skip_spaces r /\ Py.only_spaces ws = true.
Proof.
  induction r as [|c r (ws & E & Hws)]; [now exists "" |].
  simpl. destruct (Py.isspace c) eqn:Ec.
  - exists (String c ws). simpl. rewrite Ec, Hws, <- E. now split.
  - now exists "".
Qed.

Lemma span_digits_split (s ds rest : string) :
  Re.span_digits s = (ds, rest) ->
  s = ds +:+ rest /\ Py.only_digits ds = true /\ Spec.starts_with_digit rest = false.
Proof.
  revert ds rest. induction s as [|c s IH]; simpl; intros ds rest H.
  - injection H as <- <-. now repeat split.
  - destruct (Py.isdigit c) eqn:Ec.
    + destruct (Re.span_digits s) as [ds' rest'].
      destruct (IH _ _ eq_refl) as (-> & Hds & Hrest).
      injection H as <- <-. simpl. rewrite Ec, Hds. now repeat split.
    + injection H as <- <-. simpl. now repeat split.
Qed.

Lemma match_stenter_inv (s ds rest : string) :
  Re.match_stenter s = Some (ds, rest) ->
  exists ws,
    s = "stenter" +:+ ws +:+ ds +:+ rest /\
    Py.only_spaces ws = true /\ ds <> "" /\ Py.only_digits ds = true /\
    Spec.starts_with_digit rest = false.
Proof.
  unfold Re.match_stenter. intros H.
  destruct (Re.strip_prefix "stenter" s) as [r|] eqn:Hp; [| discriminate].
  apply strip_prefix_inv in Hp as ->.
  destruct (skip_spaces_split r) as (ws & Er & Hws).
  destruct (Re.span_digits (Re.skip_spaces r)) as [ds' rest'] eqn:Hd.
  apply span_digits_split in Hd as (Hd & Hds & Hrest).
  destruct ds' as [|d ds']; [discriminate |]. injection H as <- <-.
  exists ws. rewrite <- Hd, <- Er. now repeat split.
Qed.

Lemma match_stenter_at_mention (ws ds b : string) :
  Py.only_spaces ws = true -> ds <> "" -> Py.only_digits ds = true ->
  Re.match_stenter ("stenter" +:+ ws +:+ ds +:+ b) <> None.
Proof.
  intros Hws Hne Hds H.
  apply match_stenter_none in H as [H | (r & Hr & Hd)].
  - rewrite strip_prefix_app in H. discriminate.
  - rewrite strip_prefix_app in Hr. injection Hr as <-.
    rewrite (skip_spaces_app _ _ Hws) in Hd.
    destruct ds as [|d ds]; [congruence |]. simpl in Hds.
    apply andb_prop in Hds as [Hd' _].
    simpl in Hd. destruct (Py.isspace d) eqn:Es.
    + apply space_not_digit in Es. congruence.
    + simpl in Hd. rewrite Hd' in Hd.
      destruct (Re.span_digits (ds +:+ b)). discriminate.
Qed.

Lemma has_mention_cons (c : ascii) (s : string) :
  Spec.has_mention s -> Spec.has_mention (String c s).
Proof.
  intros (a & ws & ds & b & -> & H). now exists (String c a), ws, ds, b.
Qed.

(** The scan finds something exactly when the text contains a mention. *)
Lemma findall_nonempty_iff (s : string) :
  Re.findall s <> [] <-> Spec.has_mention s.
Proof.
  split.
  - unfold Re.findall. generalize (String.length s) as n. intros n. revert s.
    induction n as [|n IH]; intros s H; [now destruct H |].
    cbn [Re.findall_steps] in H.
    destruct (Re.match_stenter s) as [[ds rest]|] eqn:E.
    + apply match_stenter_inv in E as (ws & -> & Hws & Hne & Hds & _).
      now exists "", ws, ds, rest.
    + destruct s as [|c s]; [now destruct H |].
      apply has_mention_cons, IH, H.
  - intros (a & ws & ds & b & -> & Hws & Hne & Hds).
    induction a as [|c a IH]; rewrite findall_eq.
    + pose proof (match_stenter_at_mention ws ds b Hws Hne Hds) as Hm.
      change ("" +:+ "stenter" +:+ ws +:+ ds +:+ b)
        with ("stenter" +:+ ws +:+ ds +:+ b).
      destruct (Re.match_stenter _) as [[? ?]|]; [discriminate | congruence].
    + destruct (Re.match_stenter _) as [[? ?]|]; [discriminate | exact IH].
Qed.

Lemma findall_empty_iff (s : string) :
  Re.findall s = [] <-> ~ Spec.has_mention s.
Proof.
  rewrite <- findall_nonempty_iff.
  destruct (Re.findall s); split; intros H; try congruence.
  destruct H. discriminate.
Qed.

End BeforeMention.

(** * Machine extraction *)

Section MachineExtraction.

Variable M : gmap string Py.odict.

Lemma extract_machine_numbers_matches (query : string) :
  Re.findall (Py.lower query) <> [] ->
  Parsers.extract_machine_numbers M query
  = Ok (map (fun num => "stenter" +:+ num) (Re.findall (Py.lower query))).
Proof.
  unfold Parsers.extract_machine_numbers. intros H.
  destruct (Re.findall (Py.lower query)); [congruence | reflexivity].
Qed.

Lemma extract_machine_numbers_no_match (query : string) :
  Re.findall (Py.lower query) = [] ->
  Parsers.extract_machine_numbers M query
  = if Spec.has_word ["all machines"; "all stenters"] query
    then table ← Py.getitem M "production"; Ok (Py.od_keys table)
    else Ok [].
Proof.
  unfold Parsers.extract_machine_numbers. intros ->. reflexivity.
Qed.

End MachineExtraction.



(** C7, as the code has it.  A query whose lower-cased text reads
    [pre], "stenter", white space [ws], the digits [ds], [rest] -- with no
    mention in [pre] and no digit at the start of [rest] -- yields
    "stenter" followed by [ds] exactly as written (a leading zero is
    kept), and then one identifier for every further mention in [rest],
    in the order of the text, a repeated mention being listed again. *)
Theorem stenter_mentions_verbatim
    (M : gmap string Py.odict) (query pre ws ds rest : string) :
  Py.lower query = pre +:+ "stenter" +:+ ws +:+ ds +:+ rest ->
  ~ Spec.has_mention pre ->
  Py.only_spaces ws = true ->
  ds <> "" -> Py.only_digits ds = true ->
  Spec.starts_with_digit rest = false ->
  Parsers.extract_machine_numbers M query
  = Ok (("stenter" +:+ ds) :: map (fun num => "stenter" +:+ num) (Re.findall rest)).
Proof.
  intros Hq Hpre Hws Hne Hds Hrest. apply findall_empty_iff in Hpre.
  pose proof (findall_mention pre ws ds rest Hpre Hws Hne Hds Hrest) as E.
  rewrite <- Hq in E.
  rewrite extract_machine_numbers_matches; rewrite E; [reflexivity | discriminate].
Qed.

Lemma stenter_mentions_verbatim_witness :
  Parsers.extract_machine_numbers Config.MACHINE_MAPPINGS
    "Compare Stenter 01 with stenter 1 and stenter 01"
  = Ok ["stenter01"; "stenter1"; "stenter01"].
Proof.
  rewrite (stenter_mentions_verbatim Config.MACHINE_MAPPINGS
             "Compare Stenter 01 with stenter 1 and stenter 01"
             "compare " " " "01" " with stenter 1 and stenter 01");
    [reflexivity | reflexivity | now apply findall_empty_iff | reflexivity
    | discriminate | reflexivity | reflexivity].
Defined.

(** C7, as the spec words it, fails: "stenter 09" is not reduced to
    "stenter9", and a machine mentioned twice is listed twice. *)
Lemma zero_padding_and_repeats_are_kept :
  Parsers.extract_machine_numbers Config.MACHINE_MAPPINGS "performance of stenter 09"
    = Ok ["stenter09"] /\
  Parsers.extract_machine_numbers Config.MACHINE_MAPPINGS "performance of stenter 09"
    <> Ok ["stenter9"] /\
  Parsers.extract_machine_numbers Config.MACHINE_MAPPINGS "stenter 1 and stenter 1"
    = Ok ["stenter1"; "stenter1"] /\
  Parsers.extract_machine_numbers Config.MACHINE_MAPPINGS "stenter 1 and stenter 1"
    <> Ok ["stenter1"].
Proof. repeat split; (reflexivity || (vm_compute; discriminate)). Qed.

(** C4, as the code has it.  When the lower-cased query contains no
    mention of a stenter and contains "all machines" or "all stenters", the
    result is the list of the identifiers of the production table, in the
    order of the table, whatever the category of the query. *)
Theorem all_machines_expands_to_production
    (M : gmap string Py.odict) (table : Py.odict) (query : string) :
  M !! "production" = Some table ->
  ~ Spec.has_mention (Py.lower query) ->
  Spec.has_word ["all machines"; "all stenters"] query = true ->
  Parsers.extract_machine_numbers M query = Ok (Py.od_keys table).
Proof.
  intros HM Hnone Hall. apply findall_empty_iff in Hnone.
  rewrite extract_machine_numbers_no_match by exact Hnone.
  rewrite Hall. unfold Py.getitem. rewrite HM. reflexivity.
Qed.

Lemma all_machines_expands_to_production_witness :
  Parsers.detect_query_type "Power usage for all machines" = "energy" /\
  Parsers.extract_machine_numbers Config.sample_mappings
    "Power usage for all machines" = Ok ["stenter1"; "stenter01"].
Proof.
  split; [reflexivity |].
  rewrite (all_machines_expands_to_production Config.sample_mappings
             [ ("stenter1", "TJ-Stenter01 Length(ioid2)");
               ("stenter01", "TJ-Stenter01 Length(ioid2)") ]);
    [reflexivity | vm_compute; reflexivity | now apply findall_empty_iff
    | reflexivity].
Defined.

(** C4, as the spec words it, fails: for an energy query the expansion is
    not the list of the identifiers that the table knows for energy. *)
Lemma all_machines_ignores_category :
  Parsers.detect_query_type "energy for all machines" = "energy" /\
  Spec.known_identifiers Config.sample_mappings "energy" = ["stenter7"] /\
  Parsers.extract_machine_numbers Config.sample_mappings "energy for all machines"
  <> Ok (Spec.known_identifiers Config.sample_mappings
           (Parsers.detect_query_type "energy for all machines")) /\
  Parsers.extract_machine_numbers Config.MACHINE_MAPPINGS "energy for all machines"
  <> Ok (Spec.known_identifiers Config.MACHINE_MAPPINGS
           (Parsers.detect_query_type "energy for all machines")).
Proof.
  split; [reflexivity |]. split; [vm_compute; reflexivity |].
  split; vm_compute; discriminate.
Qed.

(** * Classification of the query *)

(** C5, as the code has it.  The category is the first of production,
    energy, utilization one of whose words occurs in the lower-cased
    query, also when the words of several categories occur; it is
    production when none occurs; it is never "multi_metric". *)
Theorem detect_query_type_first_match (query : string) :
  (Spec.has_word Spec.production_words query = true ->
   Parsers.detect_query_type query = "production") /\
  (Spec.has_word Spec.production_words query = false ->
   Spec.has_word Spec.energy_words query = true ->
   Parsers.detect_query_type query = "energy") /\
  (Spec.has_word Spec.production_words query = false ->
   Spec.has_word Spec.energy_words query = false ->
   Spec.has_word Spec.utilization_words query = true ->
   Parsers.detect_query_type query = "utilization") /\
  (Spec.has_word Spec.production_words query = false ->
   Spec.has_word Spec.energy_words query = false ->
   Spec.has_word Spec.utilization_words query = false ->
   Parsers.detect_query_type query = "production") /\
  Parsers.detect_query_type query <> "multi_metric".
Proof.
  unfold Parsers.detect_query_type, Spec.has_word, Spec.production_words,
    Spec.energy_words, Spec.utilization_words.
  destruct (Py.any _ ["production"; _; _; _]);
    destruct (Py.any _ ["energy"; _; _]);
    destruct (Py.any _ ["utilization"; _; _; _]);
    repeat split; intros; congruence.
Qed.

Lemma detect_query_type_first_match_witness :
  Spec.has_word Spec.production_words "Energy, production, and efficiency" = true /\
  Spec.has_word Spec.energy_words "Energy, production, and efficiency" = true /\
  Spec.has_word Spec.utilization_words "Energy, production, and efficiency" = true /\
  Parsers.detect_query_type "Energy, production, and efficiency" = "production" /\
  Parsers.detect_query_type "uptime and power" = "energy" /\
  Parsers.detect_query_type "status and downtime" = "utilization" /\
  Parsers.detect_query_type "machine performance" = "production".
Proof.
  do 3 (split; [reflexivity |]).
  split.
  { apply (proj1 (detect_query_type_first_match _)). reflexivity. }
  split.
  { apply (proj1 (proj2 (detect_query_type_first_match _))); reflexivity. }
  split.
  { apply (proj1 (proj2 (proj2 (detect_query_type_first_match _)))); reflexivity. }
  apply (proj1 (proj2 (proj2 (proj2 (detect_query_type_first_match _))))); reflexivity.
Defined.

(** C5, as the spec words it, fails: a query with a production word and
    an energy word is classified as production, not as multi_metric. *)
Lemma two_categories_are_not_multi_metric :
  Spec.has_word Spec.production_words "production and energy consumption" = true /\
  Spec.has_word Spec.energy_words "production and energy consumption" = true /\
  Parsers.detect_query_type "production and energy consumption" = "production" /\
  Parsers.detect_query_type "production and energy consumption" <> "multi_metric".
Proof. repeat split; (reflexivity || (vm_compute; discriminate)). Qed.

(** C2 fails on the code.  A casual pattern anywhere in the text makes the
    query casual, words of the data domain or not: the example of the spec
    is casual, and so is a data query of [tests/test_parsers.py] in which
    "hi" occurs inside "machine". *)
Theorem domain_words_do_not_override_casual :
  Parsers.is_casual_query "thanks for the production report" = true /\
  Parsers.is_casual_query "machine performance in april" = true.
Proof. split; reflexivity. Qed.

(** What [is_casual_query] computes: a substring test per pattern. *)
Lemma is_casual_query_spec (query : string) :
  Parsers.is_casual_query query = true <->
  exists pattern, In pattern Parsers.casual_patterns /\
    exists a b, Py.strip (Py.lower query) = a +:+ pattern +:+ b.
Proof.
  unfold Parsers.is_casual_query, Py.any. rewrite existsb_exists.
  split; intros (p & Hin & H); exists p; (split; [exact Hin |]);
    now apply contains_spec.
Qed.

(** C10.  The chart type is "line" when "line" occurs in the lower-cased
    query, else "pie" when "pie" occurs, else "bar"; it is computed for
    every query, also when no visualization keyword occurs. *)
Theorem chart_type_priority :
  (forall query : string,
     Parsers.detect_visualization_needs query
     = (Spec.has_word ["plot"; "chart"; "graph"; "visualize"; "show"] query,
        if Py.contains "line" (Py.lower query) then "line"
        else if Py.contains "pie" (Py.lower query) then "pie"
        else "bar")) /\
  Parsers.detect_visualization_needs "Bar or pie or LINE for stenter 2" = (false, "line") /\
  Parsers.detect_visualization_needs "a bar or a pie of energy" = (false, "pie") /\
  Parsers.detect_visualization_needs "energy by stenter" = (false, "bar") /\
  Parsers.detect_visualization_needs "show a pie, not a line chart" = (true, "line").
Proof.
  split; [| repeat split; reflexivity].
  intros query. unfold Parsers.detect_visualization_needs, Spec.has_word.
  destruct (Py.contains "line" _); [reflexivity |].
  destruct (Py.contains "pie" _); [reflexivity |].
  destruct (Py.contains "bar" _); reflexivity.
Qed.

(** * Date ranges *)

Section DateRange.

Lemma scan_months_first (query_lower : string)
    (earlier later : list (string * (string * string)))
    (month : string) (range : string * string) :
  (forall m, In m (map fst earlier) -> Py.contains m query_lower = false) ->
  Py.contains month query_lower = true ->
  Parsers.scan_months query_lower (earlier ++ (month, range) :: later) = Some range.
Proof.
  intros Hearlier Hmonth. induction earlier as [|[m [s e]] earlier IH]; simpl.
  - destruct range as [s e]. now rewrite Hmonth.
  - rewrite (Hearlier m) by (left; reflexivity).
    apply IH. intros m' Hin. apply Hearlier. right. exact Hin.
Qed.

End DateRange.

(** C6, as the code has it.  The table knows january to may.  For every
    query and every clock, when the name of one of these months occurs in
    the lower-cased query and the name of no earlier month of the table
    does, the date range is the range of that month, whatever relative
    phrase the query contains; and the ranges of the table are the first
    and the last calendar day of the months 1 to 5 of 2025 in ISO form. *)
Theorem month_name_selects_its_range :
  (forall (now : Datetime.date) (query : string)
          (earlier later : list (string * (string * string)))
          (month : string) (range : string * string),
     Parsers.month_mappings = earlier ++ (month, range) :: later ->
     (forall m, In m (map fst earlier) -> Py.contains m (Py.lower query) = false) ->
     Py.contains month (Py.lower query) = true ->
     Parsers.extract_date_range now query = Ok range) /\
  map fst Parsers.month_mappings = ["january"; "february"; "march"; "april"; "may"] /\
  map snd Parsers.month_mappings = map Spec.month_of_2025 [1; 2; 3; 4; 5]%Z.
Proof.
  split; [| split; reflexivity].
  intros now query earlier later month range Htable Hearlier Hmonth.
  unfold Parsers.extract_date_range. rewrite Htable.
  rewrite (scan_months_first _ _ _ _ _ Hearlier Hmonth). reflexivity.
Qed.

Lemma month_name_selects_its_range_witness :
  Parsers.extract_date_range (Datetime.mkdate 2025 6 15)
    "Production in APRIL over the last 7 days" = Ok ("2025-04-01", "2025-04-30").
Proof.
  apply (proj1 month_name_selects_its_range (Datetime.mkdate 2025 6 15)
           "Production in APRIL over the last 7 days"
           [ ("january", ("2025-01-01", "2025-01-31"));
             ("february", ("2025-02-01", "2025-02-28"));
             ("march", ("2025-03-01", "2025-03-31")) ]
           [ ("may", ("2025-05-01", "2025-05-31")) ]
           "april").
  - reflexivity.
  - intros m [<-|[<-|[<-|[]]]]; reflexivity.
  - reflexivity.
Defined.

(** C6, as the spec words it, fails: the name of a month after may is not
    recognised, and the query gets the default range of the current month. *)
Lemma december_is_not_recognised :
  Py.contains "december" (Py.lower "Production in December") = true /\
  Parsers.extract_date_range (Datetime.mkdate 2025 6 15) "Production in December"
    = Ok ("2025-06-01", "2025-06-15") /\
  Parsers.extract_date_range (Datetime.mkdate 2025 6 15) "Production in December"
    <> Ok ("2025-12-01", "2025-12-31").
Proof. repeat split; (reflexivity || (vm_compute; discriminate)). Qed.

(** * The device filter *)

Section DeviceFilter.

Variable M : gmap string Py.odict.

Lemma collect_names_known (query_type : string) (table : Py.odict)
    (machines acc : list string) :
  M !! query_type = Some table ->
  SqlBuilder.collect_names M machines query_type acc
  = Ok (acc ++ Spec.selected table machines).
Proof.
  intros HM. revert acc. induction machines as [|m machines IH]; intros acc.
  - simpl. now rewrite app_nil_r.
  - cbn [SqlBuilder.collect_names]. unfold Py.getitem. rewrite HM.
    cbn [mbind res_bind]. unfold Py.od_mem, Py.od_getitem, Spec.selected.
    cbn [omap list_omap]. fold (Spec.selected table machines).
    destruct (Py.od_lookup table m) as [v|].
    + cbn [mbind res_bind]. rewrite IH, <- app_assoc. reflexivity.
    + apply IH.
Qed.

(** What [build_device_filter] returns for a category with a table. *)
Lemma build_device_filter_known (query_type : string) (table : Py.odict)
    (machines : list string) :
  M !! query_type = Some table ->
  SqlBuilder.build_device_filter M machines query_type
  = Ok (match machines with
        | [] => ""
        | _ => Spec.filter_of_names (Spec.selected table machines)
        end).
Proof.
  intros HM. destruct machines as [|m machines]; [reflexivity |].
  unfold SqlBuilder.build_device_filter.
  rewrite (collect_names_known _ _ _ _ HM). cbn [mbind res_bind app].
  destruct (Spec.selected table (m :: machines)) as [|n [|n' names]]; reflexivity.
Qed.

(** Without a table for the category the loop raises at its first turn. *)
Lemma build_device_filter_unknown (query_type : string) (machines : list string) :
  M !! query_type = None -> machines <> [] ->
  SqlBuilder.build_device_filter M machines query_type = Raise (KeyError query_type).
Proof.
  intros HM Hne. destruct machines as [|m machines]; [congruence |].
  unfold SqlBuilder.build_device_filter. cbn [SqlBuilder.collect_names].
  unfold Py.getitem. rewrite HM. reflexivity.
Qed.


End DeviceFilter.

(** C1 fails on the code.  For a non-empty list of which no identifier
    resolves, the result is not the empty string but an [IN] clause over
    the empty name; [tests/test_sql_builder.py] expects the empty string
    for stenter 99. *)
Theorem unresolved_machines_leave_a_clause :
  Parsers.extract_machine_numbers Config.MACHINE_MAPPINGS
    "show production for stenter 99" = Ok ["stenter99"] /\
  SqlBuilder.build_device_filter Config.MACHINE_MAPPINGS ["stenter99"] "production"
  = Ok "AND device_id IN (SELECT virtual_device_id FROM devices WHERE device_name IN (''))" /\
  SqlBuilder.build_device_filter Config.MACHINE_MAPPINGS ["stenter99"] "production"
  <> Ok "".
Proof.
  split; [reflexivity |].
  split; [vm_compute; reflexivity | vm_compute; discriminate].
Qed.

(** The cases of C1 that hold: no filter for the empty list, an equality
    clause when one identifier resolves, an [IN] clause over all the
    resolved names when two or more do. *)
Lemma build_device_filter_cases
    (M : gmap string Py.odict) (query_type : string) (table : Py.odict)
    (machines : list string) :
  M !! query_type = Some table ->
  SqlBuilder.build_device_filter M [] query_type = Ok "" /\
  (forall name, Spec.selected table machines = [name] ->
     SqlBuilder.build_device_filter M machines query_type
     = Ok (SqlBuilder.equality_clause name)) /\
  (2 <= length (Spec.selected table machines) ->
     SqlBuilder.build_device_filter M machines query_type
     = Ok (SqlBuilder.in_clause (Py.join "', '" (Spec.selected table machines)))).
Proof.
  intros HM. split; [reflexivity |]. split.
  - intros name Hsel. rewrite (build_device_filter_known M _ _ _ HM), Hsel.
    destruct machines; [discriminate | reflexivity].
  - intros Hlen. rewrite (build_device_filter_known M _ _ _ HM).
    destruct machines as [|m machines]; [simpl in Hlen; lia |].
    destruct (Spec.selected table (m :: machines)) as [|n [|n' names]];
      simpl in Hlen; try lia. reflexivity.
Qed.




(** * Templates *)

Section FormatFacts.

Variable kwargs : gmap string string.

Lemma emit_some (pre : string) (r : res string) :
  Format.emit pre (Some r) = Some (s ← r; Ok (pre +:+ s)).
Proof. now destruct r. Qed.

(** Reading a field name up to its closing brace. *)
Lemma scan_field (name acc rest : string) :
  Spec.name_chars name = true ->
  Format.scan kwargs (Format.Field acc) (name +:+ String Format.rbrace rest)
  = match Format.field_value kwargs (acc +:+ name) with
    | Some (Ok v) => Format.emit v (Format.scan kwargs Format.Text rest)
    | other => other
    end.
Proof.
  revert acc. induction name as [|c name IH]; intros acc Hname.
  - rewrite str_app_nil_r. cbn [String.append Format.scan].
    now rewrite Ascii.eqb_refl.
  - cbn [Spec.name_chars] in Hname.
    apply andb_prop in Hname as [Hc Hname].
    apply andb_prop in Hc as [Hc Hbeyond].
    apply andb_prop in Hc as [Hl Hr].
    apply negb_true_iff in Hl, Hr, Hbeyond.
    cbn [String.append Format.scan]. rewrite Hl, Hr, Hbeyond.
    rewrite (IH _ Hname), str_app_assoc. reflexivity.
Qed.

Lemma field_value_plain (name : string) :
  Spec.plain_name name = true ->
  Format.field_value kwargs name = Some (Py.getitem kwargs name).
Proof.
  unfold Spec.plain_name, Format.field_value.
  destruct name as [|c name]; [discriminate |].
  intros H. apply andb_prop in H as [_ H]. apply negb_true_iff in H.
  now rewrite H.
Qed.

Lemma scan_text_char (c : ascii) (s : string) :
  Ascii.eqb c Format.lbrace = false -> Ascii.eqb c Format.rbrace = false ->
  Format.scan kwargs Format.Text (String c s)
  = Format.emit (String c "") (Format.scan kwargs Format.Text s).
Proof. intros Hl Hr. cbn [Format.scan]. now rewrite Hl, Hr. Qed.

Lemma scan_text_escape (c : ascii) (s : string) :
  Ascii.eqb c Format.lbrace || Ascii.eqb c Format.rbrace = true ->
  Format.scan kwargs Format.Text (String c (String c s))
  = Format.emit (String c "") (Format.scan kwargs Format.Text s).
Proof.
  intros H. apply orb_prop in H as [H|H]; apply Ascii.eqb_eq in H as ->.
  - cbn [Format.scan]. now rewrite Ascii.eqb_refl.
  - cbn [Format.scan]. change (Ascii.eqb Format.rbrace Format.lbrace) with false.
    cbv iota. now rewrite Ascii.eqb_refl.
Qed.

Lemma scan_text_open (name rest : string) :
  Spec.name_chars name = true -> name <> "" ->
  Format.scan kwargs Format.Text (String Format.lbrace (name +:+ rest))
  = Format.scan kwargs (Format.Field "") (name +:+ rest).
Proof.
  intros Hchars Hne. destruct name as [|c name]; [congruence |].
  cbn [Spec.name_chars] in Hchars.
  apply andb_prop in Hchars as [Hc _]. apply andb_prop in Hc as [Hc _].
  apply andb_prop in Hc as [Hl _]. apply negb_true_iff in Hl.
  change (String c name +:+ rest) with (String c (name +:+ rest)).
  remember (String c (name +:+ rest)) as s' eqn:Es.
  cbn [Format.scan]. rewrite Ascii.eqb_refl. subst s'. now rewrite Hl.
Qed.

Lemma spell_cons_hole (name : string) (ps : list Spec.piece) :
  Spec.spell (Spec.Hole name :: ps)
  = String Format.lbrace (name +:+ String Format.rbrace (Spec.spell ps)).
Proof.
  cbn [Spec.spell Spec.spell_piece String.append].
  rewrite str_app_assoc. reflexivity.
Qed.

(** On a template spelt from literal characters and plain placeholders,
    [str.format] substitutes from left to right. *)
Lemma scan_spell (ps : list Spec.piece) :
  forallb Spec.plain_piece ps = true ->
  Format.scan kwargs Format.Text (Spec.spell ps) = Some (Spec.substitute kwargs ps).
Proof.
  induction ps as [|p ps IH]; intros Hps; [reflexivity |].
  cbn [forallb] in Hps. apply andb_prop in Hps as [Hp Hps].
  specialize (IH Hps).
  destruct p as [c|name].
  - cbn [Spec.spell Spec.spell_piece Spec.substitute].
    destruct (Ascii.eqb c Format.lbrace || Ascii.eqb c Format.rbrace) eqn:E.
    + cbn [String.append]. rewrite (scan_text_escape _ _ E), IH, emit_some.
      reflexivity.
    + apply orb_false_elim in E as [El Er].
      cbn [String.append]. rewrite (scan_text_char _ _ El Er), IH, emit_some.
      reflexivity.
  - cbn [Spec.plain_piece] in Hp. rewrite spell_cons_hole.
    pose proof (field_value_plain name Hp) as Hv.
    unfold Spec.plain_name in Hp.
    assert (Hne : name <> "") by (destruct name; [discriminate | discriminate]).
    assert (Hchars : Spec.name_chars name = true).
    { destruct name; [discriminate |]. now apply andb_prop in Hp as [Hp _]. }
    rewrite (scan_text_open _ _ Hchars Hne), (scan_field _ "" _ Hchars).
    cbn [String.append Spec.substitute]. rewrite Hv, IH.
    destruct (Py.getitem kwargs name) as [v|e]; [| reflexivity].
    rewrite emit_some. reflexivity.
Qed.

Lemma emit_value_error (pre msg : string) (r : option (res string)) :
  Format.emit pre r = Some (Raise (ValueError msg)) ->
  r = Some (Raise (ValueError msg)).
Proof. destruct r as [[?|?]|]; simpl; congruence. Qed.

Lemma field_value_no_value_error (name msg : string) :
  Format.field_value kwargs name <> Some (Raise (ValueError msg)).
Proof.
  unfold Format.field_value, Py.getitem.
  destruct name; [discriminate |].
  destruct (Py.only_digits _); [discriminate |].
  destruct (kwargs !! _); discriminate.
Qed.

Lemma scan_value_error_bounded (n : nat) :
  forall (s : string) (m : Format.mode) (msg : string),
    String.length s <= n ->
    Format.scan kwargs m s = Some (Raise (ValueError msg)) ->
    In msg Spec.format_messages.
Proof.
  induction n as [|n IH]; intros s m msg Hlen H.
  - destruct s; [| simpl in Hlen; lia].
    destruct m; simpl in H; [discriminate | injection H as <-; simpl; tauto].
  - destruct s as [|c s].
    { destruct m; simpl in H; [discriminate | injection H as <-; simpl; tauto]. }
    simpl in Hlen.
    destruct m as [|name]; cbn [Format.scan] in H.
    + destruct (Ascii.eqb c Format.lbrace).
      { destruct s as [|c' s']; [injection H as <-; simpl; tauto |].
        simpl in Hlen.
        destruct (Ascii.eqb c' Format.lbrace).
        - apply emit_value_error in H. eapply IH; [| exact H]. lia.
        - eapply IH; [| exact H]. simpl. lia. }
      destruct (Ascii.eqb c Format.rbrace).
      { destruct s as [|c' s']; [injection H as <-; simpl; tauto |].
        simpl in Hlen.
        destruct (Ascii.eqb c' Format.rbrace).
        - apply emit_value_error in H. eapply IH; [| exact H]. lia.
        - injection H as <-. simpl. tauto. }
      apply emit_value_error in H. eapply IH; [| exact H]. lia.
    + destruct (Ascii.eqb c Format.rbrace).
      { destruct (Format.field_value kwargs name) as [[v|e]|] eqn:Ev.
        - apply emit_value_error in H. eapply IH; [| exact H]. lia.
        - injection H as Heq. rewrite Heq in Ev.
          now apply field_value_no_value_error in Ev.
        - discriminate. }
      destruct (Ascii.eqb c Format.lbrace); [injection H as <-; simpl; tauto |].
      destruct (Format.beyond_field c); [discriminate |].
      eapply IH; [| exact H]. lia.
Qed.

(** The [ValueError]s of [str.format] carry its own messages. *)
Lemma format_value_error (template msg : string) :
  Format.format template kwargs = Some (Raise (ValueError msg)) ->
  In msg Spec.format_messages.
Proof. apply (scan_value_error_bounded (String.length template)). lia. Qed.

(** All placeholders bound: the substitution succeeds and fills them. *)
Lemma substitute_bound (ps : list Spec.piece) :
  Forall (fun k => is_Some (kwargs !! k)) (Spec.holes ps) ->
  Spec.substitute kwargs ps = Ok (Spec.fill kwargs ps).
Proof.
  induction ps as [|[c|name] ps IH]; intros Hb; [reflexivity | |].
  - cbn [Spec.substitute Spec.fill Spec.fill_piece]. now rewrite (IH Hb).
  - unfold Spec.holes in Hb. cbn [omap list_omap] in Hb.
    apply Forall_cons in Hb as [[v Hv] Hb].
    cbn [Spec.substitute Spec.fill Spec.fill_piece]. unfold Py.getitem.
    rewrite Hv. cbn [mbind res_bind default]. now rewrite (IH Hb).
Qed.

(** Some placeholder unbound: the substitution raises [KeyError]. *)
Lemma substitute_unbound (ps : list Spec.piece) :
  (exists k, In k (Spec.holes ps) /\ kwargs !! k = None) ->
  exists k, In k (Spec.holes ps) /\ kwargs !! k = None /\
            Spec.substitute kwargs ps = Raise (KeyError k).
Proof.
  induction ps as [|[c|name] ps IH]; intros (k & Hin & Hk).
  - destruct Hin.
  - destruct IH as (k' & Hin' & Hk' & E); [now exists k |].
    exists k'. repeat split; [exact Hin' | exact Hk' |].
    cbn [Spec.substitute]. now rewrite E.
  - cbn [Spec.substitute]. unfold Py.getitem.
    destruct (kwargs !! name) as [v|] eqn:Ev.
    + destruct Hin as [<-|Hin]; [congruence |].
      destruct IH as (k' & Hin' & Hk' & E); [now exists k |].
      exists k'. repeat split; [right; exact Hin' | exact Hk' |].
      cbn [mbind res_bind]. now rewrite E.
    + exists name. repeat split; [left; reflexivity | exact Ev].
Qed.

Lemma substitute_cases (ps : list Spec.piece) :
  Spec.substitute kwargs ps = Ok (Spec.fill kwargs ps) /\
    Forall (fun k => is_Some (kwargs !! k)) (Spec.holes ps)
  \/ exists k, In k (Spec.holes ps) /\ kwargs !! k = None /\
               Spec.substitute kwargs ps = Raise (KeyError k).
Proof.
  destruct (decide (Forall (fun k => is_Some (kwargs !! k)) (Spec.holes ps)))
    as [Hb|Hn].
  - left. split; [now apply substitute_bound | exact Hb].
  - right. apply substitute_unbound.
    apply not_Forall_Exists in Hn; [| intros k; apply _].
    apply Exists_exists in Hn as (k & Hin & Hk).
    apply list_elem_of_In in Hin.
    exists k. split; [exact Hin |].
    destruct (kwargs !! k) eqn:E; [| reflexivity].
    destruct Hk. now exists s.
Qed.

End FormatFacts.

(** C8, as the code has it.  [build_query] raises the [ValueError]
    "Template <name> not found" exactly when no template is registered
    under the requested name.  For a registered template made of literal
    text and plain named placeholders it raises [KeyError] exactly when
    some placeholder has no value among the parameters, and any exception
    it raises is the [KeyError] of such a placeholder; it returns exactly
    when every placeholder has a value, and what it returns is the
    template with every placeholder replaced by its value. *)
Theorem build_query_errors
    (templates : gmap string string) (template_name : string)
    (params : gmap string string) :
  (templates !! template_name = None <->
   SqlBuilder.build_query templates template_name params
   = Some (Raise (ValueError ("Template " +:+ template_name +:+ " not found")))) /\
  (forall ps : list Spec.piece,
     templates !! template_name = Some (Spec.spell ps) ->
     forallb Spec.plain_piece ps = true ->
     ((exists k, In k (Spec.holes ps) /\ params !! k = None) <->
      raises (SqlBuilder.build_query templates template_name params) "KeyError") /\
     (forall e,
        SqlBuilder.build_query templates template_name params = Some (Raise e) ->
        exists k, e = KeyError k /\ In k (Spec.holes ps) /\ params !! k = None) /\
     (Forall (fun k => is_Some (params !! k)) (Spec.holes ps) <->
      exists s, SqlBuilder.build_query templates template_name params = Some (Ok s)) /\
     (forall s,
        SqlBuilder.build_query templates template_name params = Some (Ok s) ->
        s = Spec.fill params ps)).
Proof.
  unfold SqlBuilder.build_query. split.
  - destruct (templates !! template_name) as [t|] eqn:Et; [| tauto].
    split; [discriminate |]. intros H.
    apply format_value_error in H. exfalso.
    destruct H as [H|[H|[H|[H|[]]]]]; discriminate H.
  - intros ps Et Hplain. rewrite Et. unfold Format.format.
    rewrite (scan_spell params ps Hplain).
    destruct (substitute_cases params ps)
      as [[E Hb] | (k & Hin & Hk & E)]; rewrite E.
    + split; [| split; [| split]].
      * split.
        -- intros (k & Hin & Hk). exfalso.
           apply list_elem_of_In in Hin.
           rewrite Forall_forall in Hb. destruct (Hb k Hin) as [v Hv]. congruence.
        -- intros (e & He & _). discriminate.
      * intros e He. discriminate.
      * split; [eauto | intros _; exact Hb].
      * intros s [= <-]. reflexivity.
    + split; [| split; [| split]].
      * split; [intros _; exists (KeyError k); split; reflexivity | eauto].
      * intros e [= <-]. eauto.
      * split; [| intros [s Hs]; discriminate].
        intros Hb. exfalso. apply list_elem_of_In in Hin.
        rewrite Forall_forall in Hb. destruct (Hb k Hin) as [v Hv]. congruence.
      * intros s Hs. discriminate.
Qed.

Lemma build_query_errors_witness :
  SqlBuilder.build_query SqlBuilder.load_templates "hourly_production" ∅
    = Some (Raise (ValueError "Template hourly_production not found")) /\
  raises (SqlBuilder.build_query Spec.sample_templates "daily_energy"
            {[ "start_date" := "2025-04-01" ]}) "KeyError" /\
  (exists s, SqlBuilder.build_query Spec.sample_templates "daily_energy"
               {[ "start_date" := "2025-04-01"; "device_filter" := "" ]}
             = Some (Ok s)).
Proof.
  split.
  { apply (proj1 (build_query_errors SqlBuilder.load_templates
                    "hourly_production" ∅)).
    vm_compute. reflexivity. }
  split.
  - apply (proj2 (build_query_errors Spec.sample_templates "daily_energy"
                    {[ "start_date" := "2025-04-01" ]}) Spec.sample_pieces).
    + vm_compute. reflexivity.
    + reflexivity.
    + exists "device_filter". split; [right; left; reflexivity |].
      vm_compute. reflexivity.
  - apply (proj2 (build_query_errors Spec.sample_templates "daily_energy"
                    {[ "start_date" := "2025-04-01"; "device_filter" := "" ]})
             Spec.sample_pieces).
    + vm_compute. reflexivity.
    + reflexivity.
    + repeat constructor; vm_compute; eauto.
Defined.

(** C8, as the spec words it, fails: the exceptions are Python's
    [ValueError] and [KeyError]; no [TemplateNotFoundError] and no
    [MissingParameterError] is ever raised. *)
Lemma build_query_raises_builtin_errors :
  raises (SqlBuilder.build_query SqlBuilder.load_templates "hourly_production" ∅)
    "ValueError" /\
  ~ raises (SqlBuilder.build_query SqlBuilder.load_templates "hourly_production" ∅)
      "TemplateNotFoundError" /\
  raises (SqlBuilder.build_query Spec.sample_templates "daily_energy" ∅) "KeyError" /\
  ~ raises (SqlBuilder.build_query Spec.sample_templates "daily_energy" ∅)
      "MissingParameterError".
Proof.
  split; [eexists; split; [vm_compute; reflexivity | reflexivity] |].
  split; [intros (e & He & Hc); vm_compute in He; injection He as <-; discriminate |].
  split; [eexists; split; [vm_compute; reflexivity | reflexivity] |].
  intros (e & He & Hc). vm_compute in He. injection He as <-. discriminate.
Qed.

Example build_query_daily_production :
  SqlBuilder.build_query SqlBuilder.load_templates "daily_production" ∅
  = Some (Ok "
            WITH device_lookup AS (
                SELECT virtual_device_id, device_name FROM devices
            ),
            production_calculation AS (
                -- Your existing template logic
            )
            SELECT * FROM production_calculation;
            ").
Proof. vm_compute. reflexivity. Qed.

(** * Chat sessions *)

Lemma last_ten_short {A : Type} (l : list A) :
  length l <= 10 -> Session.last_ten l = l.
Proof.
  intros H. unfold Session.last_ten.
  replace (length l - 10) with 0 by lia. reflexivity.
Qed.

Lemma last_ten_length {A : Type} (l : list A) :
  length (Session.last_ten l) = Nat.min (length l) 10.
Proof. unfold Session.last_ten. rewrite length_drop. lia. Qed.

Lemma last_ten_snoc {A : Type} (l : list A) (x : A) :
  Session.last_ten (Session.last_ten l ++ [x]) = Session.last_ten (l ++ [x]).
Proof.
  unfold Session.last_ten.
  rewrite !length_app, length_drop. cbn [length].
  destruct (decide (length l <= 10)) as [Hle|Hgt].
  - replace (length l - 10) with 0 by lia. rewrite drop_0.
    replace (length l - 0 + 1 - 10) with (length l + 1 - 10) by lia.
    reflexivity.
  - replace (length l - (length l - 10) + 1 - 10) with 1 by lia.
    replace (length l + 1 - 10) with ((length l - 10) + 1) by lia.
    assert (Hlen : 1 <= length (drop (length l - 10) l))
      by (rewrite length_drop; lia).
    rewrite (drop_app_le (drop _ l)) by exact Hlen.
    rewrite drop_app_le by lia.
    now rewrite drop_drop.
Qed.

(** What [add_message] stores: the trimming test is absorbed by [last_ten]. *)
Lemma add_message_stored {timestamp : Type} (st : Session.session_state timestamp)
    (ss : gmap string (Session.session timestamp)) (active : string)
    (s : Session.session timestamp) (msg : Session.message) :
  Session.sessions st = Some ss ->
  Session.active_session_id st = Some active ->
  ss !! active = Some s ->
  Session.add_message msg st
  = Session.Done
      (Session.mk_state
         (Some (<[active := Session.mk_session (Session.title s)
                   (Session.last_ten (Session.messages s ++ [msg]))
                   (Session.created_at s)]> ss))
         (Some active)).
Proof.
  intros Hss Hact Hs. unfold Session.add_message. rewrite Hact, Hss, Hs.
  destruct (10 <? length (Session.messages s ++ [msg]))%nat eqn:E; [reflexivity |].
  apply Nat.ltb_ge in E. now rewrite last_ten_short.
Qed.

Lemma add_message_dangling {timestamp : Type} (st : Session.session_state timestamp)
    (ss : gmap string (Session.session timestamp)) (active : string)
    (msg : Session.message) :
  Session.sessions st = Some ss ->
  Session.active_session_id st = Some active ->
  ss !! active = None ->
  Session.add_message msg st = Session.Done st.
Proof. unfold Session.add_message. now intros -> -> ->. Qed.

(** X1.  [add_message] on a stored active session: the session then holds
    the last ten of its messages followed by the new one, so at most ten,
    the new message is the last one, and when the session was not full
    nothing is dropped. *)
Theorem add_message_keeps_last_ten {timestamp : Type} (st : Session.session_state timestamp)
    (ss : gmap string (Session.session timestamp)) (active : string)
    (s : Session.session timestamp) (msg : Session.message) :
  Session.sessions st = Some ss ->
  Session.active_session_id st = Some active ->
  ss !! active = Some s ->
  exists st' kept,
    Session.add_message msg st = Session.Done st' /\
    Session.active_messages st' = Some kept /\
    kept = Session.last_ten (Session.messages s ++ [msg]) /\
    length kept = Nat.min (S (length (Session.messages s))) 10 /\
    last kept = Some msg /\
    (length (Session.messages s) < 10 -> kept = Session.messages s ++ [msg]).
Proof.
  intros Hss Hact Hs.
  eexists. exists (Session.last_ten (Session.messages s ++ [msg])).
  split; [exact (add_message_stored st ss active s msg Hss Hact Hs) |].
  split; [unfold Session.active_messages; cbn; now rewrite lookup_insert_eq |].
  split; [reflexivity |].
  split; [rewrite last_ten_length, length_app; cbn; lia |].
  split.
  - unfold Session.last_ten. rewrite length_app. cbn [length].
    rewrite drop_app_le by lia. apply last_snoc.
  - intros Hlt. apply last_ten_short. rewrite length_app. cbn. lia.
Qed.

Lemma add_message_keeps_last_ten_witness :
  exists st',
    Session.add_message (Session.HumanMessage "k") Fixtures.full_state
      = Session.Done st' /\
    Session.active_messages st'
    = Some (map Session.HumanMessage
              ["1"; "2"; "3"; "4"; "5"; "6"; "7"; "8"; "9"; "k"]).
Proof.
  destruct (add_message_keeps_last_ten Fixtures.full_state
              Fixtures.full_sessions "a" Fixtures.full_session
              (Session.HumanMessage "k") eq_refl eq_refl eq_refl)
    as (st' & kept & E & Hact & Hkept & _).
  exists st'. split; [exact E |]. rewrite Hact, Hkept. reflexivity.
Defined.

(** X2.  [add_message] touches nothing but the messages of the active
    session: the active identifier, every other session, and the title and
    creation time of the active session stay as they were. *)
Theorem add_message_frame {timestamp : Type} (st : Session.session_state timestamp)
    (ss : gmap string (Session.session timestamp)) (active : string)
    (s : Session.session timestamp) (msg : Session.message) :
  Session.sessions st = Some ss ->
  Session.active_session_id st = Some active ->
  ss !! active = Some s ->
  exists st' ss' s',
    Session.add_message msg st = Session.Done st' /\
    Session.sessions st' = Some ss' /\
    Session.active_session_id st' = Some active /\
    (forall k, k <> active -> ss' !! k = ss !! k) /\
    ss' !! active = Some s' /\
    Session.title s' = Session.title s /\
    Session.created_at s' = Session.created_at s.
Proof.
  intros Hss Hact Hs. eexists. eexists. eexists.
  split; [exact (add_message_stored st ss active s msg Hss Hact Hs) |].
  cbn. split; [reflexivity |]. split; [reflexivity |].
  split; [intros k Hk; now rewrite lookup_insert_ne |].
  split; [apply lookup_insert_eq |]. split; reflexivity.
Qed.

Lemma add_message_frame_witness :
  exists st',
    Session.add_message (Session.HumanMessage "hi") Fixtures.two_sessions
      = Session.Done st' /\
    (Session.sessions st' ≫= (fun ss' => ss' !! "b")) = Some Fixtures.session_b.
Proof.
  destruct (add_message_frame Fixtures.two_sessions
              Fixtures.two_stored "a" Fixtures.session_a
              (Session.HumanMessage "hi") eq_refl eq_refl eq_refl)
    as (st' & ss' & s' & E & Hss' & _ & Hother & _).
  exists st'. split; [exact E |].
  rewrite Hss'. cbn. rewrite Hother by discriminate. vm_compute. reflexivity.
Defined.

(** X3.  The failures of [add_message]: it raises [AttributeError] exactly
    when a key of the session state is absent, the active identifier being
    read first; and when the active identifier names no stored session the
    message is dropped and the state is left as it was. *)
Theorem add_message_failures {timestamp : Type}
    (st : Session.session_state timestamp) (msg : Session.message) :
  (forall key,
     Session.add_message msg st = Session.AttributeError key <->
     (Session.active_session_id st = None /\ key = "active_session_id") \/
     (Session.active_session_id st <> None /\ Session.sessions st = None /\
      key = "sessions")) /\
  (forall ss active,
     Session.sessions st = Some ss ->
     Session.active_session_id st = Some active ->
     ss !! active = None ->
     Session.add_message msg st = Session.Done st).
Proof.
  unfold Session.add_message. split.
  - intros key.
    destruct (Session.active_session_id st) as [active|].
    + destruct (Session.sessions st) as [ss|].
      * destruct (ss !! active); split; try discriminate;
          intros [[? _]|(_ & ? & _)]; discriminate.
      * split.
        -- intros [= <-]. right. now repeat split.
        -- intros [[? _]|(_ & _ & ->)]; [discriminate | reflexivity].
    + split.
      * intros [= <-]. left. now split.
      * intros [[_ ->]|(H & _)]; [reflexivity | congruence].
  - intros ss active -> -> ->. reflexivity.
Qed.

Lemma add_message_failures_witness :
  Session.add_message (Session.HumanMessage "hi") Fixtures.dangling_state
  = Session.Done Fixtures.dangling_state.
Proof.
  eapply (proj2 (add_message_failures Fixtures.dangling_state _));
    [reflexivity | reflexivity | vm_compute; reflexivity].
Defined.


(** X4.  [initialize_sessions] is idempotent: once it has run, running it
    again changes nothing, whatever identifier and time the second run
    draws. *)
Theorem initialize_sessions_idempotent {timestamp : Type}
    (st : Session.session_state timestamp)
    (id1 id2 : string) (now1 now2 : timestamp) :
  Session.initialize_sessions id2 now2 (Session.initialize_sessions id1 now1 st)
  = Session.initialize_sessions id1 now1 st.
Proof.
  unfold Session.initialize_sessions.
  destruct st as [[ss|] [active|]]; reflexivity.
Qed.

(** X5.  On a state without an active identifier, [initialize_sessions]
    stores a welcome session of one message under the new identifier,
    makes it active, and keeps every session stored under another
    identifier. *)
Theorem initialize_sessions_welcome {timestamp : Type}
    (st : Session.session_state timestamp) (session_id : string) (now : timestamp) :
  Session.active_session_id st = None ->
  let st' := Session.initialize_sessions session_id now st in
  Session.active_session_id st' = Some session_id /\
  Session.active_messages st'
    = Some [Session.AIMessage "Hello! I'm your Production Analytics Bot."] /\
  Session.active_is_stored st' /\
  (forall ss k, Session.sessions st = Some ss -> k <> session_id ->
     exists ss', Session.sessions st' = Some ss' /\ ss' !! k = ss !! k).
Proof.
  intros Hact. unfold Session.initialize_sessions.
  destruct st as [[ss|] active]; cbn in Hact; subst active; cbn.
  - split; [reflexivity |].
    split; [unfold Session.active_messages; cbn; now rewrite lookup_insert_eq |].
    split.
    + eexists. eexists. eexists. cbn.
      split; [reflexivity |]. split; [reflexivity |]. apply lookup_insert_eq.
    + intros ss0 k [= <-] Hk. eexists. split; [reflexivity |].
      now rewrite lookup_insert_ne.
  - split; [reflexivity |].
    split; [unfold Session.active_messages; cbn; now rewrite lookup_insert_eq |].
    split.
    + eexists. eexists. eexists. cbn.
      split; [reflexivity |]. split; [reflexivity |]. apply lookup_insert_eq.
    + intros ss0 k [=].
Qed.

Lemma initialize_sessions_welcome_witness :
  Session.active_messages
    (Session.initialize_sessions "id-1" 7 (Session.mk_state (Some Fixtures.two_stored) None))
  = Some [Session.AIMessage "Hello! I'm your Production Analytics Bot."].
Proof.
  apply (initialize_sessions_welcome
           (Session.mk_state (Some Fixtures.two_stored) None) "id-1" 7 eq_refl).
Defined.

(** X6.  Once the active identifier names a stored session, it keeps doing
    so: [add_message] and [create_new_session] then never raise, and they
    leave a state in which the active identifier names a stored session.
    [initialize_sessions] on the empty state gives such a state. *)
Theorem active_session_stays_stored {timestamp : Type}
    (st : Session.session_state timestamp) :
  Session.active_is_stored st ->
  (forall msg, exists st',
     Session.add_message msg st = Session.Done st' /\
     Session.active_is_stored st') /\
  (forall session_id now, exists st',
     Session.create_new_session session_id now st = Session.Done st' /\
     Session.active_is_stored st' /\
     Session.active_session_id st' = Some session_id) /\
  (forall session_id now,
     Session.active_is_stored
       (Session.initialize_sessions session_id now (@Session.empty_state timestamp))).
Proof.
  intros (ss & active & s & Hss & Hact & Hs). split; [| split].
  - intros msg. eexists.
    split; [exact (add_message_stored st ss active s msg Hss Hact Hs) |].
    eexists. eexists. eexists. cbn.
    split; [reflexivity |]. split; [reflexivity |]. apply lookup_insert_eq.
  - intros session_id now. unfold Session.create_new_session. rewrite Hss.
    eexists. split; [reflexivity |]. split; [| reflexivity].
    eexists. eexists. eexists. cbn.
    split; [reflexivity |]. split; [reflexivity |]. apply lookup_insert_eq.
  - intros session_id now. eexists. eexists. eexists. cbn.
    split; [reflexivity |]. split; [reflexivity |]. apply lookup_insert_eq.
Qed.

Lemma active_session_stays_stored_witness :
  exists st',
    Session.create_new_session "b" 3 Fixtures.full_state = Session.Done st' /\
    Session.active_session_id st' = Some "b".
Proof.
  assert (H : Session.active_is_stored Fixtures.full_state).
  { exists Fixtures.full_sessions, "a", Fixtures.full_session.
    repeat split; reflexivity. }
  destruct (proj1 (proj2 (active_session_stays_stored Fixtures.full_state H)) "b" 3)
    as (st' & E & _ & Hact).
  exists st'. split; [exact E | exact Hact].
Defined.

(** X7.  The bound of ten messages per session is an invariant: when no
    stored session holds more than ten messages, none does after
    [initialize_sessions], [create_new_session] or [add_message]. *)
Theorem history_stays_bounded {timestamp : Type}
    (st : Session.session_state timestamp) :
  Session.history_bounded st ->
  (forall session_id now,
     Session.history_bounded (Session.initialize_sessions session_id now st)) /\
  (forall session_id now st',
     Session.create_new_session session_id now st = Session.Done st' ->
     Session.history_bounded st') /\
  (forall msg st',
     Session.add_message msg st = Session.Done st' ->
     Session.history_bounded st').
Proof.
  intros Hb. split; [| split].
  - intros session_id now ss' k s'. unfold Session.initialize_sessions.
    destruct st as [[ss|] [active|]]; cbn; intros [= <-] Hk.
    + exact (Hb ss k s' eq_refl Hk).
    + destruct (decide (session_id = k)) as [->|Hne].
      * rewrite lookup_insert_eq in Hk. injection Hk as <-. cbn. lia.
      * rewrite lookup_insert_ne in Hk by exact Hne. exact (Hb ss k s' eq_refl Hk).
    + rewrite lookup_empty in Hk. discriminate.
    + destruct (decide (session_id = k)) as [->|Hne].
      * rewrite lookup_insert_eq in Hk. injection Hk as <-. cbn. lia.
      * rewrite lookup_insert_ne, lookup_empty in Hk by exact Hne. discriminate.
  - intros session_id now st'. unfold Session.create_new_session.
    destruct (Session.sessions st) as [ss|] eqn:Hss; [| discriminate].
    intros [= <-] ss' k s'. cbn. intros [= <-] Hk.
    destruct (decide (session_id = k)) as [->|Hne].
    + rewrite lookup_insert_eq in Hk. injection Hk as <-. cbn. lia.
    + rewrite lookup_insert_ne in Hk by exact Hne. exact (Hb ss k s' Hss Hk).
  - intros msg st' H.
    destruct (Session.active_session_id st) as [active|] eqn:Hact;
      [| unfold Session.add_message in H; rewrite Hact in H; discriminate].
    destruct (Session.sessions st) as [ss|] eqn:Hss;
      [| unfold Session.add_message in H; rewrite Hact, Hss in H; discriminate].
    destruct (ss !! active) as [s|] eqn:Hs.
    + rewrite (add_message_stored st ss active s msg Hss Hact Hs) in H.
      injection H as <-. intros ss' k s'. cbn. intros [= <-] Hk.
      destruct (decide (active = k)) as [->|Hne].
      * rewrite lookup_insert_eq in Hk. injection Hk as <-.
        cbn [Session.messages]. rewrite last_ten_length. lia.
      * rewrite lookup_insert_ne in Hk by exact Hne. exact (Hb ss k s' Hss Hk).
    + rewrite (add_message_dangling st ss active msg Hss Hact Hs) in H.
      injection H as <-. exact Hb.
Qed.

Lemma history_stays_bounded_witness :
  exists st',
    Session.add_message (Session.HumanMessage "k") Fixtures.full_state
      = Session.Done st' /\
    Session.history_bounded st'.
Proof.
  assert (H : Session.history_bounded Fixtures.full_state).
  { intros ss k s [= <-] Hk. unfold Fixtures.full_sessions in Hk.
    apply lookup_singleton_Some in Hk as [_ <-]. cbn. lia. }
  eexists. split; [reflexivity |].
  exact (proj2 (proj2 (history_stays_bounded Fixtures.full_state H))
           (Session.HumanMessage "k") _ eq_refl).
Defined.

Lemma last_ten_app {A : Type} (l r : list A) :
  Session.last_ten (Session.last_ten l ++ r) = Session.last_ten (l ++ r).
Proof.
  induction r as [|x r IH] using rev_ind.
  - rewrite !app_nil_r. apply last_ten_short. rewrite last_ten_length. lia.
  - rewrite !app_assoc, <- last_ten_snoc, IH, last_ten_snoc. reflexivity.
Qed.

Lemma add_messages_stored {timestamp : Type} (msgs : list Session.message) :
  forall (st : Session.session_state timestamp)
         (ss : gmap string (Session.session timestamp)) (active : string)
         (s : Session.session timestamp),
    Session.sessions st = Some ss ->
    Session.active_session_id st = Some active ->
    ss !! active = Some s ->
    length (Session.messages s) <= 10 ->
    exists st',
      Session.add_messages msgs st = Session.Done st' /\
      Session.active_session_id st' = Some active /\
      Session.active_messages st'
        = Some (Session.last_ten (Session.messages s ++ msgs)).
Proof.
  induction msgs as [|msg msgs IH]; intros st ss active s Hss Hact Hs Hlen.
  - exists st. split; [reflexivity |]. split; [exact Hact |].
    unfold Session.active_messages. rewrite Hss, Hact, Hs, app_nil_r. cbn.
    now rewrite last_ten_short.
  - cbn [Session.add_messages].
    rewrite (add_message_stored st ss active s msg Hss Hact Hs).
    set (s1 := Session.mk_session (Session.title s)
                 (Session.last_ten (Session.messages s ++ [msg]))
                 (Session.created_at s)).
    destruct (IH (Session.mk_state (Some (<[active := s1]> ss)) (Some active))
                (<[active := s1]> ss) active s1 eq_refl eq_refl
                ltac:(apply lookup_insert_eq)
                ltac:(cbn; rewrite last_ten_length; lia))
      as (st' & E & Hact' & Hmsgs).
    exists st'. split; [exact E |]. split; [exact Hact' |].
    rewrite Hmsgs. cbn [Session.messages s1]. f_equal.
    rewrite last_ten_app, <- app_assoc. reflexivity.
Qed.

(** X8.  A run of messages: after [initialize_sessions] on the empty state
    and [add_message] for each message of a list in turn, the active
    session holds the last ten of the welcome message followed by the
    list, in the order of the list. *)
Theorem conversation_keeps_last_ten {timestamp : Type}
    (session_id : string) (now : timestamp) (msgs : list Session.message) :
  exists st',
    Session.add_messages msgs
      (Session.initialize_sessions session_id now Session.empty_state)
    = Session.Done st' /\
    Session.active_session_id st' = Some session_id /\
    Session.active_messages st'
    = Some (Session.last_ten
              (Session.AIMessage "Hello! I'm your Production Analytics Bot." :: msgs)).
Proof.
  destruct (add_messages_stored msgs
              (Session.initialize_sessions session_id now Session.empty_state)
              _ session_id _ eq_refl eq_refl
              ltac:(apply lookup_insert_eq) ltac:(cbn; lia))
    as (st' & E & Hact & Hmsgs).
  exists st'. split; [exact E |]. split; [exact Hact |]. exact Hmsgs.
Qed.

(** X9.  A new chat: on a state that has sessions, [create_new_session]
    followed by [add_message] leaves the greeting and the message in the
    new session, which is the active one, and every session stored under
    another identifier as it was. *)
Theorem new_session_receives_messages {timestamp : Type}
    (st : Session.session_state timestamp)
    (ss : gmap string (Session.session timestamp))
    (session_id : string) (now : timestamp) (msg : Session.message) :
  Session.sessions st = Some ss ->
  exists st1 st2 ss2,
    Session.create_new_session session_id now st = Session.Done st1 /\
    Session.add_message msg st1 = Session.Done st2 /\
    Session.active_session_id st2 = Some session_id /\
    Session.active_messages st2
      = Some [Session.AIMessage
                "Hello! How can I help you analyze your production data?"; msg] /\
    Session.sessions st2 = Some ss2 /\
    (forall k, k <> session_id -> ss2 !! k = ss !! k).
Proof.
  intros Hss. unfold Session.create_new_session. rewrite Hss.
  eexists. eexists. eexists. split; [reflexivity |].
  split.
  { eapply add_message_stored; [reflexivity | reflexivity | apply lookup_insert_eq]. }
  cbn. split; [reflexivity |].
  split; [unfold Session.active_messages; cbn; now rewrite lookup_insert_eq |].
  split; [reflexivity |].
  intros k Hk. now rewrite !lookup_insert_ne by congruence.
Qed.

Lemma new_session_receives_messages_witness :
  exists st1 st2,
    Session.create_new_session "c" 9 Fixtures.two_sessions = Session.Done st1 /\
    Session.add_message (Session.HumanMessage "hi") st1 = Session.Done st2 /\
    (Session.sessions st2 ≫= (fun ss2 => ss2 !! "b")) = Some Fixtures.session_b.
Proof.
  destruct (new_session_receives_messages Fixtures.two_sessions Fixtures.two_stored
              "c" 9 (Session.HumanMessage "hi") eq_refl)
    as (st1 & st2 & ss2 & E1 & E2 & _ & _ & Hss2 & Hother).
  exists st1, st2. split; [exact E1 |]. split; [exact E2 |].
  rewrite Hss2. cbn. rewrite Hother by discriminate. vm_compute. reflexivity.
Defined.

(** * Casual queries without [strip] *)

Section CasualFacts.

Lemma prefix_cons (p s : string) (a b : ascii) :
  String.prefix (String a p) (String b s)
  = if Ascii.eqb a b then String.prefix p s else false.
Proof.
  cbn [String.prefix]. destruct (ascii_dec a b) as [->|Hne].
  - now rewrite Ascii.eqb_refl.
  - apply Ascii.eqb_neq in Hne. now rewrite Hne.
Qed.

Lemma prefix_nil_r (p : string) : p <> "" -> String.prefix p "" = false.
Proof. destruct p; [congruence | reflexivity]. Qed.

Lemma contains_cons (p s : string) (c : ascii) :
  Py.contains p (String c s) = String.prefix p (String c s) || Py.contains p s.
Proof. reflexivity. Qed.

Lemma contains_lstrip (p s : string) :
  Props.edges_nonspace p = true -> Py.contains p (Py.lstrip s) = Py.contains p s.
Proof.
  intros Hp. destruct p as [|x p]; [discriminate |].
  cbn [Props.edges_nonspace] in Hp. apply andb_prop in Hp as [Hx _].
  apply negb_true_iff in Hx.
  induction s as [|c s IH]; [reflexivity |].
  cbn [Py.lstrip]. destruct (Py.isspace c) eqn:Ec; [| reflexivity].
  rewrite IH, contains_cons, prefix_cons.
  destruct (Ascii.eqb_spec x c) as [->|_]; [congruence | reflexivity].
Qed.

Lemma rstrip_cons (c : ascii) (s : string) :
  Py.rstrip (String c s)
  = match Py.rstrip s with
    | EmptyString => if Py.isspace c then EmptyString else String c EmptyString
    | r => String c r
    end.
Proof. reflexivity. Qed.

Lemma prefix_rstrip (p : string) :
  Props.ends_nonspace p = true ->
  forall s, String.prefix p (Py.rstrip s) = String.prefix p s.
Proof.
  induction p as [|x p IH]; [discriminate |]. intros Hp s.
  destruct s as [|c s]; [reflexivity |].
  rewrite rstrip_cons, (prefix_cons p s).
  destruct p as [|y p].
  - cbn [Props.ends_nonspace] in Hp. apply negb_true_iff in Hp.
    destruct (Ascii.eqb_spec x c) as [->|Hne].
    + rewrite Hp. destruct (Py.rstrip s); rewrite prefix_cons, Ascii.eqb_refl;
        now destruct s.
    + apply Ascii.eqb_neq in Hne.
      destruct (Py.rstrip s); [destruct (Py.isspace c) |];
        rewrite ?prefix_cons, ?Hne; reflexivity.
  - assert (Hp' : Props.ends_nonspace (String y p) = true) by exact Hp.
    specialize (IH Hp' s). revert IH.
    destruct (Py.rstrip s) as [|r0 r] eqn:Er; intros IH.
    + rewrite prefix_nil_r in IH by discriminate. rewrite <- IH.
      destruct (Py.isspace c); [now destruct (Ascii.eqb x c) |].
      rewrite prefix_cons. now destruct (Ascii.eqb x c).
    + rewrite prefix_cons, <- IH. reflexivity.
Qed.

Lemma contains_rstrip (p s : string) :
  Props.ends_nonspace p = true -> Py.contains p (Py.rstrip s) = Py.contains p s.
Proof.
  intros Hp. induction s as [|c s IH]; [reflexivity |].
  rewrite contains_cons, <- IH, <- (prefix_rstrip p Hp (String c s)), rstrip_cons.
  assert (Hne : p <> "") by (destruct p; [discriminate | discriminate]).
  destruct (Py.rstrip s) as [|r0 r] eqn:Er.
  - assert (Hnil : Py.contains p "" = false).
    { cbn [Py.contains]. rewrite prefix_nil_r by exact Hne. reflexivity. }
    rewrite Hnil, orb_false_r.
    destruct (Py.isspace c).
    + rewrite Hnil, prefix_nil_r by exact Hne. reflexivity.
    + rewrite contains_cons, Hnil. apply orb_false_r.
  - apply contains_cons.
Qed.

(** [strip] does not change whether a word without white space at its
    ends occurs. *)
Lemma contains_strip (p s : string) :
  Props.edges_nonspace p = true -> Py.contains p (Py.strip s) = Py.contains p s.
Proof.
  intros Hp. unfold Py.strip.
  rewrite contains_rstrip, contains_lstrip; [reflexivity | exact Hp |].
  destruct p; [discriminate |]. now apply andb_prop in Hp as [_ Hp].
Qed.

Lemma casual_patterns_edges :
  forallb Props.edges_nonspace Parsers.casual_patterns = true.
Proof. reflexivity. Qed.

End CasualFacts.

(** X10.  A query is casual exactly when one of the six patterns occurs
    in its lower-cased text; [strip] plays no part.  So a pattern in any
    letter case, anywhere inside any text, makes the query casual. *)
Theorem casual_pattern_anywhere :
  (forall query,
     Parsers.is_casual_query query = true <->
     exists pattern, In pattern Parsers.casual_patterns /\
                     Py.contains pattern (Py.lower query) = true) /\
  (forall a w b,
     In (Py.lower w) Parsers.casual_patterns ->
     Parsers.is_casual_query (a +:+ w +:+ b) = true).
Proof.
  assert (Hiff : forall query,
            Parsers.is_casual_query query = true <->
            exists pattern, In pattern Parsers.casual_patterns /\
                            Py.contains pattern (Py.lower query) = true).
  { intros query. unfold Parsers.is_casual_query, Py.any.
    rewrite existsb_exists.
    pose proof casual_patterns_edges as Hedges.
    rewrite forallb_forall in Hedges.
    split; intros (p & Hin & H); exists p; (split; [exact Hin |]).
    - now rewrite contains_strip in H by auto.
    - now rewrite contains_strip by auto. }
  split; [exact Hiff |].
  intros a w b Hin. apply Hiff. exists (Py.lower w). split; [exact Hin |].
  now apply (contains_lower _ a w b).
Qed.

Lemma casual_pattern_anywhere_witness :
  Parsers.is_casual_query "Which shift ran stenter 3?" = true.
Proof.
  apply (proj2 casual_pattern_anywhere "W" "hi" "ch shift ran stenter 3?").
  right. left. reflexivity.
Defined.

Lemma lower_only_spaces (s : string) :
  Py.only_spaces s = true -> Py.lower s = s.
Proof.
  induction s as [|c s IH]; [reflexivity |]. cbn. intros H.
  apply andb_prop in H as [Hc Hs]. rewrite (IH Hs). f_equal.
  revert Hc. destruct c as [[] [] [] [] [] [] [] []]; vm_compute; congruence.
Qed.

Lemma lstrip_only_spaces (s : string) :
  Py.only_spaces s = true -> Py.lstrip s = "".
Proof.
  induction s as [|c s IH]; [reflexivity |]. cbn. intros H.
  apply andb_prop in H as [Hc Hs]. rewrite Hc. auto.
Qed.

(** X11.  An empty query, or one made of white space only, is not
    casual. *)
Theorem blank_query_is_not_casual (query : string) :
  Py.only_spaces query = true -> Parsers.is_casual_query query = false.
Proof.
  intros H. unfold Parsers.is_casual_query, Py.strip.
  rewrite (lower_only_spaces _ H), (lstrip_only_spaces _ H). reflexivity.
Qed.

Lemma blank_query_is_not_casual_witness :
  Parsers.is_casual_query "" = false /\
  Parsers.is_casual_query (String " " (String "009" (String " " ""))) = false.
Proof.
  split; apply blank_query_is_not_casual; reflexivity.
Defined.

(** * Outcomes of machine extraction and of the device filter *)

Lemma findall_steps_digits (n : nat) (s : string) :
  Forall (fun ds => ds <> "" /\ Py.only_digits ds = true) (Re.findall_steps n s).
Proof.
  revert s. induction n as [|n IH]; intros s; [constructor |].
  cbn [Re.findall_steps].
  destruct (Re.match_stenter s) as [[ds rest]|] eqn:E.
  - apply match_stenter_inv in E as (ws & _ & _ & Hne & Hds & _).
    constructor; [now split | apply IH].
  - destruct s; [constructor | apply IH].
Qed.

(** X12.  When the lower-cased query contains a mention, every
    identifier that [extract_machine_numbers] returns is "stenter"
    followed by a non-empty run of decimal digits: no other text of the
    query reaches the result. *)
Theorem extracted_ids_are_stenter_digits
    (M : gmap string Py.odict) (query : string) (ids : list string) :
  Spec.has_mention (Py.lower query) ->
  Parsers.extract_machine_numbers M query = Ok ids ->
  ids <> [] /\ Forall Props.stenter_id ids.
Proof.
  intros Hm H. apply findall_nonempty_iff in Hm.
  rewrite (extract_machine_numbers_matches M query Hm) in H. injection H as <-.
  split; [now destruct (Re.findall (Py.lower query)) |].
  pose proof (findall_steps_digits (String.length (Py.lower query)) (Py.lower query))
    as Hd.
  fold (Re.findall (Py.lower query)) in Hd. clear Hm.
  induction Hd as [|ds l [Hne Hds] _ IH]; cbn [map]; constructor; [| exact IH].
  exists ds. now repeat split.
Qed.

Lemma extracted_ids_are_stenter_digits_witness :
  Forall Props.stenter_id ["stenter7"].
Proof.
  refine (proj2 (extracted_ids_are_stenter_digits ∅
                   "DROP TABLE devices; -- stenter 7" ["stenter7"] _ _)).
  - exists "drop table devices; -- ", " ", "7", "".
    repeat split; (reflexivity || discriminate).
  - reflexivity.
Defined.

(** An exception of [extract_machine_numbers] comes from the lookup of the
    production table. *)
Lemma extract_machine_numbers_raise_inv
    (M : gmap string Py.odict) (query : string) (e : exn) :
  Parsers.extract_machine_numbers M query = Raise e ->
  e = KeyError "production" /\
  ~ Spec.has_mention (Py.lower query) /\
  Spec.has_word ["all machines"; "all stenters"] query = true /\
  M !! "production" = None.
Proof.
  intros H.
  destruct (Re.findall (Py.lower query)) as [|d l] eqn:Ef.
  - rewrite (extract_machine_numbers_no_match M query Ef) in H.
    destruct (Spec.has_word _ query) eqn:Hw; [| discriminate].
    unfold Py.getitem in H.
    destruct (M !! "production") eqn:HM; [discriminate |].
    injection H as <-. repeat split. now apply findall_empty_iff.
  - rewrite (extract_machine_numbers_matches M query) in H by congruence.
    discriminate.
Qed.

(** X13.  The outcomes of [extract_machine_numbers] on a query without a
    mention: the empty list when neither "all machines" nor "all stenters"
    occurs, and [KeyError('production')] when one of them occurs and the
    mapping table has no production table.  The function raises in no
    other case. *)
Theorem extract_machine_numbers_outcomes
    (M : gmap string Py.odict) (query : string) :
  (~ Spec.has_mention (Py.lower query) ->
   Spec.has_word ["all machines"; "all stenters"] query = false ->
   Parsers.extract_machine_numbers M query = Ok []) /\
  (~ Spec.has_mention (Py.lower query) ->
   Spec.has_word ["all machines"; "all stenters"] query = true ->
   M !! "production" = None ->
   Parsers.extract_machine_numbers M query = Raise (KeyError "production")) /\
  (forall e, Parsers.extract_machine_numbers M query = Raise e ->
     e = KeyError "production" /\
     ~ Spec.has_mention (Py.lower query) /\
     Spec.has_word ["all machines"; "all stenters"] query = true /\
     M !! "production" = None).
Proof.
  split; [| split].
  - intros Hm Hw. apply findall_empty_iff in Hm.
    now rewrite (extract_machine_numbers_no_match M query Hm), Hw.
  - intros Hm Hw HM. apply findall_empty_iff in Hm.
    rewrite (extract_machine_numbers_no_match M query Hm), Hw.
    unfold Py.getitem. now rewrite HM.
  - intros e. apply extract_machine_numbers_raise_inv.
Qed.

Lemma extract_machine_numbers_outcomes_witness :
  Parsers.extract_machine_numbers Config.MACHINE_MAPPINGS "every machine utilization"
    = Ok [] /\
  Parsers.extract_machine_numbers ∅ "all machines" = Raise (KeyError "production").
Proof.
  split.
  - apply (proj1 (extract_machine_numbers_outcomes _ _));
      [now apply findall_empty_iff | reflexivity].
  - apply (proj1 (proj2 (extract_machine_numbers_outcomes _ _)));
      [now apply findall_empty_iff | reflexivity | reflexivity].
Defined.

(** X14.  [build_device_filter] raises exactly when the list is not empty
    and the mapping table has no table for the query type, and what it
    raises is [KeyError] of the query type; an identifier that is missing
    from a table never raises. *)
Theorem build_device_filter_raises
    (M : gmap string Py.odict) (machines : list string) (query_type : string)
    (e : exn) :
  SqlBuilder.build_device_filter M machines query_type = Raise e <->
  machines <> [] /\ M !! query_type = None /\ e = KeyError query_type.
Proof.
  split.
  - intros H. destruct (M !! query_type) as [table|] eqn:HM.
    + rewrite (build_device_filter_known M _ _ machines HM) in H. discriminate.
    + destruct machines as [|m machines]; [discriminate |].
      rewrite (build_device_filter_unknown M query_type (m :: machines) HM) in H
        by discriminate.
      injection H as <-. now repeat split.
  - intros (Hne & HM & ->). now apply build_device_filter_unknown.
Qed.

Lemma build_device_filter_raises_witness :
  SqlBuilder.build_device_filter Config.MACHINE_MAPPINGS ["stenter1"] "energy"
  = Raise (KeyError "energy").
Proof.
  apply (proj2 (build_device_filter_raises Config.MACHINE_MAPPINGS
                  ["stenter1"] "energy" (KeyError "energy"))).
  split; [discriminate |]. split; reflexivity.
Defined.

Lemma detect_query_type_range (query : string) :
  In (Parsers.detect_query_type query) ["production"; "energy"; "utilization"].
Proof.
  unfold Parsers.detect_query_type.
  destruct (Py.any _ _); [now left |].
  destruct (Py.any _ _); [right; now left |].
  destruct (Py.any _ _); [right; right; now left | now left].
Qed.

(** X15.  Parsing and filter building compose without an exception: when
    the mapping table has the tables of the three categories, the
    identifiers extracted from any query and its detected category give a
    device filter. *)
Theorem query_to_filter_never_raises
    (M : gmap string Py.odict) (query : string) :
  Props.covers_categories M ->
  exists ids clause,
    Parsers.extract_machine_numbers M query = Ok ids /\
    SqlBuilder.build_device_filter M ids (Parsers.detect_query_type query)
    = Ok clause.
Proof.
  intros ([tp Hp] & [te He] & [tu Hu]).
  assert (Hids : exists ids, Parsers.extract_machine_numbers M query = Ok ids).
  { destruct (Parsers.extract_machine_numbers M query) as [ids|e] eqn:E; [eauto |].
    apply extract_machine_numbers_raise_inv in E as (_ & _ & _ & HM).
    congruence. }
  destruct Hids as [ids Hids]. exists ids.
  assert (Ht : exists table, M !! Parsers.detect_query_type query = Some table).
  { destruct (detect_query_type_range query) as [<-|[<-|[<-|[]]]]; eauto. }
  destruct Ht as [table Ht]. eexists. split; [exact Hids |].
  apply (build_device_filter_known M _ table ids Ht).
Qed.

Lemma query_to_filter_never_raises_witness :
  exists ids clause,
    Parsers.extract_machine_numbers Config.sample_mappings
      "energy for stenter 7 and all machines" = Ok ids /\
    SqlBuilder.build_device_filter Config.sample_mappings ids
      (Parsers.detect_query_type "energy for stenter 7 and all machines") = Ok clause.
Proof.
  apply query_to_filter_never_raises.
  repeat split; vm_compute; eauto.
Defined.

(** * Templates without placeholders, and unused parameters *)

Lemma format_escape (kwargs : gmap string string) (s : string) :
  Format.format (Props.escape s) kwargs = Some (Ok s).
Proof.
  unfold Format.format. induction s as [|c s IH]; [reflexivity |].
  cbn [Props.escape].
  destruct (Ascii.eqb c Format.lbrace || Ascii.eqb c Format.rbrace) eqn:E.
  - now rewrite (scan_text_escape kwargs c _ E), IH.
  - apply orb_false_elim in E as [El Er].
    now rewrite (scan_text_char kwargs c _ El Er), IH.
Qed.

Lemma escape_no_braces (s : string) : Props.no_braces s = true -> Props.escape s = s.
Proof.
  induction s as [|c s IH]; [reflexivity |]. cbn. intros H.
  apply andb_prop in H as [H Hs]. apply andb_prop in H as [Hl Hr].
  apply negb_true_iff in Hl, Hr. rewrite Hl, Hr. cbn. now rewrite IH.
Qed.

(** X16.  Escaped braces round-trip: a template that spells a text with
    every brace doubled builds to that text, whatever the parameters. *)
Theorem escaped_text_round_trip
    (templates : gmap string string) (template_name text : string)
    (params : gmap string string) :
  templates !! template_name = Some (Props.escape text) ->
  SqlBuilder.build_query templates template_name params = Some (Ok text).
Proof.
  intros Ht. unfold SqlBuilder.build_query. rewrite Ht. apply format_escape.
Qed.

Lemma escaped_text_round_trip_witness :
  SqlBuilder.build_query {[ "json" := "SELECT '{{a}}' AS j" ]} "json"
    {[ "a" := "ignored" ]}
  = Some (Ok "SELECT '{a}' AS j").
Proof.
  apply (escaped_text_round_trip {[ "json" := "SELECT '{{a}}' AS j" ]} "json"
           "SELECT '{a}' AS j").
  vm_compute. reflexivity.
Defined.

(** X17.  A registered template without braces is returned as it is,
    whatever parameters are passed: so is the template that
    [_load_templates] registers. *)
Theorem brace_free_template_is_returned
    (templates : gmap string string) (template_name template : string)
    (params : gmap string string) :
  templates !! template_name = Some template ->
  Props.no_braces template = true ->
  SqlBuilder.build_query templates template_name params = Some (Ok template).
Proof.
  intros Ht Hb. unfold SqlBuilder.build_query. rewrite Ht.
  rewrite <- (escape_no_braces template Hb) at 1. apply format_escape.
Qed.

Lemma brace_free_template_is_returned_witness :
  exists template,
    SqlBuilder.load_templates !! "daily_production" = Some template /\
    SqlBuilder.build_query SqlBuilder.load_templates "daily_production"
      {[ "start_date" := "2025-04-01"; "device_filter" := "" ]}
    = Some (Ok template).
Proof.
  eexists. split; [vm_compute; reflexivity |].
  apply brace_free_template_is_returned; vm_compute; reflexivity.
Defined.

Lemma substitute_agree (kw kw' : gmap string string) (ps : list Spec.piece) :
  (forall k, In k (Spec.holes ps) -> kw !! k = kw' !! k) ->
  Spec.substitute kw ps = Spec.substitute kw' ps.
Proof.
  induction ps as [|[c|name] ps IH]; intros H; [reflexivity | |].
  - cbn [Spec.substitute]. now rewrite IH.
  - cbn [Spec.substitute]. unfold Py.getitem.
    rewrite <- (H name) by now left.
    rewrite IH by (intros k Hk; apply H; now right). reflexivity.
Qed.

(** X18.  [build_query] reads only the parameters that the template
    names: two sets of parameters that agree on the placeholders of a
    template of literal text and plain placeholders give the same result,
    exception included; a parameter the template does not name is
    ignored. *)
Theorem unused_parameters_are_ignored
    (templates : gmap string string) (template_name : string)
    (ps : list Spec.piece) (params params' : gmap string string) :
  templates !! template_name = Some (Spec.spell ps) ->
  forallb Spec.plain_piece ps = true ->
  (forall k, In k (Spec.holes ps) -> params !! k = params' !! k) ->
  SqlBuilder.build_query templates template_name params
  = SqlBuilder.build_query templates template_name params'.
Proof.
  intros Ht Hplain Hagree. unfold SqlBuilder.build_query, Format.format.
  rewrite Ht, !(scan_spell _ ps Hplain). f_equal.
  now apply substitute_agree.
Qed.

Lemma unused_parameters_are_ignored_witness :
  SqlBuilder.build_query Spec.sample_templates "daily_energy"
    {[ "start_date" := "2025-04-01"; "device_filter" := ""; "limit" := "10" ]}
  = SqlBuilder.build_query Spec.sample_templates "daily_energy"
      {[ "start_date" := "2025-04-01"; "device_filter" := "" ]}.
Proof.
  apply (unused_parameters_are_ignored Spec.sample_templates "daily_energy"
           Spec.sample_pieces).
  - vm_compute. reflexivity.
  - reflexivity.
  - intros k [<-|[<-|[]]]; vm_compute; reflexivity.
Defined.

(** * Calendar arithmetic *)

Section CalendarFacts.

Local Open Scope Z_scope.

Lemma leap_year_length (y : Z) :
  Props.days_before_year (y + 1) - Props.days_before_year y
  = 365 + (if Datetime.is_leap y then 1 else 0).
Proof.
  unfold Props.days_before_year, Datetime.is_leap.
  replace (y + 1 - 1) with y by lia.
  destruct (y mod 4 =? 0) eqn:E4; destruct (y mod 100 =? 0) eqn:E100;
    destruct (y mod 400 =? 0) eqn:E400; cbn [andb orb negb];
    rewrite ?Z.eqb_eq, ?Z.eqb_neq in *;
    Z.to_euclidean_division_equations; lia.
Qed.

Lemma days_in_first_months_12 (y : Z) :
  Props.days_in_first_months y 12 = 365 + (if Datetime.is_leap y then 1 else 0).
Proof.
  unfold Props.days_in_first_months, Datetime.days_in_month.
  cbn -[Datetime.is_leap Z.add]. destruct (Datetime.is_leap y); reflexivity.
Qed.

Lemma days_in_month_pos (y m : Z) : 28 <= Datetime.days_in_month y m <= 31.
Proof.
  unfold Datetime.days_in_month.
  destruct (m =? 2); [destruct (Datetime.is_leap y); lia |].
  destruct (_ || _); lia.
Qed.

(** The day before: one less in the count of days, and again a date. *)
Lemma prev_day_ordinal (d : Datetime.date) :
  Props.valid_date d -> 1 < Props.ordinal d ->
  exists d', Datetime.prev_day d = Ok d' /\ Props.valid_date d' /\
             Props.ordinal d' = Props.ordinal d - 1.
Proof.
  destruct d as [y m a]. unfold Props.valid_date, Props.ordinal, Datetime.prev_day.
  cbn [Datetime.year Datetime.month Datetime.day].
  intros (Hy & Hm & Ha) Hord.
  destruct (1 <? a) eqn:Ea.
  - apply Z.ltb_lt in Ea. eexists. split; [reflexivity |].
    cbn [Datetime.year Datetime.month Datetime.day]. repeat split; lia.
  - apply Z.ltb_ge in Ea. assert (a = 1) by lia. subst a.
    destruct (1 <? m) eqn:Em.
    + apply Z.ltb_lt in Em. eexists. split; [reflexivity |].
      cbn [Datetime.year Datetime.month Datetime.day].
      pose proof (days_in_month_pos y (m - 1)) as Hd.
      repeat split; try lia.
      replace (Z.to_nat (m - 1)) with (S (Z.to_nat (m - 1 - 1))) by lia.
      cbn [Props.days_in_first_months].
      replace (Z.of_nat (S (Z.to_nat (m - 1 - 1)))) with (m - 1) by lia. lia.
    + apply Z.ltb_ge in Em. assert (m = 1) by lia. subst m.
      destruct (1 <? y) eqn:Ey.
      * apply Z.ltb_lt in Ey. eexists. split; [reflexivity |].
        cbn [Datetime.year Datetime.month Datetime.day].
        repeat split; try lia; [reflexivity |].
        change (Z.to_nat (12 - 1)) with 11%nat.
        change (Z.to_nat (1 - 1)) with 0%nat.
        pose proof (days_in_first_months_12 (y - 1)) as H12.
        pose proof (leap_year_length (y - 1)) as Hleap.
        replace (y - 1 + 1) with y in Hleap by lia.
        cbn [Props.days_in_first_months] in H12 |- *.
        change (Datetime.days_in_month (y - 1) (Z.of_nat 12)) with 31 in H12.
        lia.
      * apply Z.ltb_ge in Ey. assert (y = 1) by lia. subst y.
        vm_compute in Hord. discriminate.
Qed.

Lemma prev_day_first (d : Datetime.date) :
  Props.valid_date d -> Props.ordinal d <= 1 ->
  Datetime.prev_day d = Raise (OverflowError "date value out of range").
Proof.
  destruct d as [y m a]. unfold Props.valid_date, Props.ordinal, Datetime.prev_day.
  cbn [Datetime.year Datetime.month Datetime.day].
  intros (Hy & Hm & Ha) Hord.
  assert (Hdby : 0 <= Props.days_before_year y).
  { unfold Props.days_before_year. Z.to_euclidean_division_equations. lia. }
  assert (Hfirst : 0 <= Props.days_in_first_months y (Z.to_nat (m - 1))).
  { generalize (Z.to_nat (m - 1)). intros n. induction n as [|n IH]; cbn; [lia |].
    pose proof (days_in_month_pos y (Z.of_nat (S n))). lia. }
  assert (a = 1) by lia. subst a.
  assert (Hm1 : m = 1).
  { destruct (Z.eq_dec m 1) as [|Hne]; [assumption | exfalso].
    replace (Z.to_nat (m - 1)) with (S (Z.to_nat (m - 1 - 1))) in Hord by lia.
    cbn [Props.days_in_first_months] in Hord.
    pose proof (days_in_month_pos y (Z.of_nat (S (Z.to_nat (m - 1 - 1))))).
    assert (0 <= Props.days_in_first_months y (Z.to_nat (m - 1 - 1))).
    { generalize (Z.to_nat (m - 1 - 1)). intros n. induction n as [|n IH]; cbn; [lia |].
      pose proof (days_in_month_pos y (Z.of_nat (S n))). lia. }
    lia. }
  subst m.
  assert (y = 1).
  { destruct (Z.eq_dec y 1) as [|Hne]; [assumption | exfalso].
    change (Z.to_nat (1 - 1)) with 0%nat in Hord. cbn in Hord.
    unfold Props.days_before_year in Hord.
    Z.to_euclidean_division_equations. lia. }
  subst y. reflexivity.
Qed.

(** [d - timedelta(days=n)] is the date [n] days before [d], and raises
    when that day is before 0001-01-01. *)
Lemma sub_days_ordinal (n : nat) :
  forall d, Props.valid_date d ->
    (Z.of_nat n < Props.ordinal d ->
     exists d', Datetime.sub_days d n = Ok d' /\ Props.valid_date d' /\
                Props.ordinal d' = Props.ordinal d - Z.of_nat n) /\
    (Props.ordinal d <= Z.of_nat n ->
     Datetime.sub_days d n = Raise (OverflowError "date value out of range")).
Proof.
  induction n as [|n IH]; intros d Hd.
  - split.
    + intros _. exists d. repeat split; try apply Hd. cbn. lia.
    + intros Hle. exfalso.
      destruct d as [y m a]. unfold Props.valid_date, Props.ordinal in *.
      cbn [Datetime.year Datetime.month Datetime.day] in *.
      assert (0 <= Props.days_before_year y).
      { unfold Props.days_before_year. Z.to_euclidean_division_equations. lia. }
      assert (0 <= Props.days_in_first_months y (Z.to_nat (m - 1))).
      { generalize (Z.to_nat (m - 1)). intros k. induction k as [|k IHk]; cbn; [lia |].
        pose proof (days_in_month_pos y (Z.of_nat (S k))). lia. }
      lia.
  - cbn [Datetime.sub_days].
    destruct (Z_lt_le_dec 1 (Props.ordinal d)) as [Hgt|Hle].
    + destruct (prev_day_ordinal d Hd Hgt) as (d1 & E1 & Hd1 & Ho1).
      rewrite E1. cbn [mbind res_bind].
      destruct (IH d1 Hd1) as [Hok Hraise]. split.
      * intros Hlt. destruct Hok as (d' & E & Hd' & Ho'); [lia |].
        exists d'. repeat split; try apply Hd'; [exact E | lia].
      * intros Hle. apply Hraise. lia.
    + rewrite (prev_day_first d Hd Hle). split; [intros; lia | reflexivity].
Qed.

End CalendarFacts.

(** * Date ranges and the calendar *)

Section DateRangeFacts.

Local Open Scope Z_scope.

Lemma extract_date_range_no_month (now : Datetime.date) (query : string) :
  Props.no_month query ->
  Parsers.extract_date_range now query
  = if Spec.has_word ["last 7 days"; "past week"] query
    then start_date ← Datetime.sub_days now 7;
         Ok (Datetime.strftime start_date, Datetime.strftime now)
    else Ok (Datetime.strftime (Datetime.replace_day now 1), Datetime.strftime now).
Proof.
  unfold Props.no_month, Parsers.extract_date_range. intros ->. reflexivity.
Qed.




End DateRangeFacts.



(** X20.  [extract_date_range] raises in one case only: on a valid date
    of the first week of year 1, for a query that names no month of the
    table and contains "last 7 days" or "past week"; it then raises
    [OverflowError].  On every later date it returns a range. *)
Theorem date_range_failure
    (now : Datetime.date) (query : string) (e : exn) :
  Props.valid_date now ->
  Parsers.extract_date_range now query = Raise e <->
  Props.no_month query /\
  Spec.has_word ["last 7 days"; "past week"] query = true /\
  (Props.ordinal now <= 7)%Z /\
  e = OverflowError "date value out of range".
Proof.
  intros Hv. split.
  - intros H.
    destruct (Parsers.scan_months (Py.lower query) Parsers.month_mappings)
      as [range|] eqn:Em.
    { unfold Parsers.extract_date_range in H. rewrite Em in H. discriminate. }
    rewrite (extract_date_range_no_month now query Em) in H.
    destruct (Spec.has_word _ query) eqn:Hw; [| discriminate].
    destruct (Z_lt_le_dec 7 (Props.ordinal now)) as [Hgt|Hle].
    + destruct (proj1 (sub_days_ordinal 7 now Hv)) as (start & E & _);
        [exact Hgt |].
      rewrite E in H. discriminate.
    + rewrite (proj2 (sub_days_ordinal 7 now Hv) Hle) in H.
      injection H as <-. now repeat split.
  - intros (Hm & Hw & Hle & ->).
    rewrite (extract_date_range_no_month now query Hm), Hw.
    now rewrite (proj2 (sub_days_ordinal 7 now Hv) Hle).
Qed.

Lemma date_range_failure_witness :
  Parsers.extract_date_range (Datetime.mkdate 1 1 5) "last 7 days"
  = Raise (OverflowError "date value out of range").
Proof.
  apply (proj2 (date_range_failure (Datetime.mkdate 1 1 5) "last 7 days" _
                  ltac:(vm_compute; intuition discriminate))).
  repeat split; (reflexivity || (vm_compute; discriminate)).
Defined.



(** * Malformed templates and the parameter that is reported *)

Lemma scan_brace_free (kwargs : gmap string string) (a s : string) :
  Props.no_braces a = true ->
  Format.scan kwargs Format.Text (a +:+ s)
  = Format.emit a (Format.scan kwargs Format.Text s).
Proof.
  induction a as [|c a IH]; intros H.
  - cbn [String.append]. now destruct (Format.scan kwargs Format.Text s) as [[?|?]|].
  - cbn [Props.no_braces] in H. apply andb_prop in H as [H Ha].
    apply andb_prop in H as [Hl Hr]. apply negb_true_iff in Hl, Hr.
    cbn [String.append]. rewrite (scan_text_char kwargs c _ Hl Hr), (IH Ha).
    now destruct (Format.scan kwargs Format.Text s) as [[?|?]|].
Qed.

(** X22.  A registered template whose first brace is a closing brace that
    is not doubled cannot be built: [build_query] raises the [ValueError]
    of [str.format], whatever the parameters. *)
Theorem stray_closing_brace_fails
    (templates : gmap string string) (template_name before after : string)
    (params : gmap string string) :
  templates !! template_name
    = Some (before +:+ String Format.rbrace after) ->
  Props.no_braces before = true ->
  String.prefix (String Format.rbrace EmptyString) after = false ->
  SqlBuilder.build_query templates template_name params
  = Some (Raise (ValueError "Single '}' encountered in format string")).
Proof.
  intros Ht Hb Hafter. unfold SqlBuilder.build_query, Format.format.
  rewrite Ht, (scan_brace_free params _ _ Hb).
  enough (E : Format.scan params Format.Text (String Format.rbrace after)
              = Some (Raise (ValueError "Single '}' encountered in format string")))
    by now rewrite E.
  cbn [Format.scan]. change (Ascii.eqb Format.rbrace Format.lbrace) with false.
  cbv iota. rewrite Ascii.eqb_refl.
  destruct after as [|c after]; [reflexivity |].
  rewrite prefix_cons in Hafter.
  rewrite Ascii.eqb_sym.
  destruct (Ascii.eqb Format.rbrace c); [now destruct after | reflexivity].
Qed.

Lemma stray_closing_brace_fails_witness :
  SqlBuilder.build_query {[ "t" := "SELECT map('a', 1)} FROM {table}" ]} "t"
    {[ "table" := "devices" ]}
  = Some (Raise (ValueError "Single '}' encountered in format string")).
Proof.
  apply (stray_closing_brace_fails _ "t" "SELECT map('a', 1)" " FROM {table}");
    (vm_compute; reflexivity).
Defined.

Lemma substitute_first_unbound (kwargs : gmap string string)
    (ps1 ps2 : list Spec.piece) (name : string) :
  Forall (fun k => is_Some (kwargs !! k)) (Spec.holes ps1) ->
  kwargs !! name = None ->
  Spec.substitute kwargs (ps1 ++ Spec.Hole name :: ps2) = Raise (KeyError name).
Proof.
  intros Hb Hn. induction ps1 as [|[c|k] ps1 IH].
  - cbn [app Spec.substitute]. unfold Py.getitem. now rewrite Hn.
  - cbn [app Spec.substitute]. now rewrite (IH Hb).
  - unfold Spec.holes in Hb. cbn [omap list_omap] in Hb.
    apply Forall_cons in Hb as [[v Hv] Hb].
    cbn [app Spec.substitute]. unfold Py.getitem. rewrite Hv.
    cbn [mbind res_bind]. now rewrite (IH Hb).
Qed.

(** X23.  The [KeyError] of [build_query] names the first placeholder, in
    the order of the template, that has no value: placeholders before it
    with a value and placeholders after it, with or without a value, do
    not change the exception. *)
Theorem first_missing_parameter_is_reported
    (templates : gmap string string) (template_name : string)
    (ps1 ps2 : list Spec.piece) (name : string) (params : gmap string string) :
  templates !! template_name = Some (Spec.spell (ps1 ++ Spec.Hole name :: ps2)) ->
  forallb Spec.plain_piece (ps1 ++ Spec.Hole name :: ps2) = true ->
  Forall (fun k => is_Some (params !! k)) (Spec.holes ps1) ->
  params !! name = None ->
  SqlBuilder.build_query templates template_name params
  = Some (Raise (KeyError name)).
Proof.
  intros Ht Hplain Hb Hn. unfold SqlBuilder.build_query, Format.format.
  rewrite Ht, (scan_spell params _ Hplain).
  now rewrite (substitute_first_unbound params ps1 ps2 name Hb Hn).
Qed.

Lemma first_missing_parameter_is_reported_witness :
  SqlBuilder.build_query Spec.sample_templates "daily_energy" ∅
  = Some (Raise (KeyError "start_date")).
Proof.
  apply (first_missing_parameter_is_reported Spec.sample_templates "daily_energy"
           (Spec.lits "SELECT * FROM energy WHERE day >= '")
           (Spec.lits "' " ++ [Spec.Hole "device_filter"]) "start_date").
  - vm_compute. reflexivity.
  - reflexivity.
  - vm_compute. constructor.
  - reflexivity.
Defined.
